(** * lumigo_tracer.sync_http.sync_hook: a shallow embedding

    The Python module [sync_hook] wraps a serverless handler
    ([_lumigo_tracer] / [lambda_wrapper]), installs four interception points
    on the HTTP client once per process ([wrap_http_calls]), reconstructs a
    request record from the bytes handed to [HTTPConnection.send]
    ([_request_wrapper]), injects a trace header ([_putheader_wrapper]) and
    adapts a Chalice application ([LumigoChalice]).

    Conventions of the embedding.
    - Python [bytes] and [str] are Rocq strings (sequences of 8-bit
      characters); [decode_ascii] is the only place where the difference is
      observable, and it is modelled.
    - A Python computation is a function [σ -> σ * result A]: it threads the
      process state and either returns or raises.  [exn] carries the
      exception's type, message and traceback, and whether it is an instance
      of [Exception] (what an [except Exception] clause catches).
    - Mutable objects that are shared between the caller and the hook
      ([io.BytesIO] streams) live in a heap inside the state and are passed
      by reference.
    - The trace context ([SpansContainer]), the logger, [wrapt] and the
      configuration belong to other modules of the package; they are
      modelled from their contracts, see each definition. *)

From Stdlib Require Import String Ascii List Bool Arith Lia.
From stdpp Require Import base option list gmap strings.

Local Open Scope string_scope.
Local Open Scope list_scope.

(** ** Python string and bytes primitives *)

Module Py.

(** [s.startswith(pat)]. *)
Fixpoint startswith (pat s : string) : bool :=
  match pat, s with
  | EmptyString, _ => true
  | String a p, String b t => if Ascii.eqb a b then startswith p t else false
  | String _ _, EmptyString => false
  end.

(** Drop the first [n] characters: [s[n:]]. *)
Fixpoint drop (n : nat) (s : string) : string :=
  match n, s with
  | O, _ => s
  | S k, String _ t => drop k t
  | S _, EmptyString => EmptyString
  end.

(** [s[:n]]. *)
Fixpoint take (n : nat) (s : string) : string :=
  match n, s with
  | O, _ => EmptyString
  | S k, String c t => String c (take k t)
  | S _, EmptyString => EmptyString
  end.

(** [sep in s]. *)
Fixpoint contains (sep s : string) : bool :=
  startswith sep s
  || match s with
     | EmptyString => false
     | String _ t => contains sep t
     end.

(** The text before and after the first occurrence of [sep] in [s]. *)
Fixpoint partition1 (sep s : string) : option (string * string) :=
  if startswith sep s then Some (EmptyString, drop (String.length sep) s)
  else match s with
       | EmptyString => None
       | String c t =>
           match partition1 sep t with
           | Some (a, b) => Some (String c a, b)
           | None => None
           end
       end.

(** [s.split(sep, 1)] for a non-empty separator: at most one cut, at the
    first occurrence. *)
Definition split1 (s sep : string) : list string :=
  match partition1 sep s with
  | Some (a, b) => [a; b]
  | None => [s]
  end.

(** [str.replace] scans left to right and replaces non-overlapping
    occurrences; [skip] counts the characters of a match still to be
    dropped. *)
Fixpoint replace_from (old new : string) (skip : nat) (s : string) : string :=
  match s with
  | EmptyString => EmptyString
  | String c t =>
      match skip with
      | S k => replace_from old new k t
      | O =>
          if startswith old s
          then new ++ replace_from old new (String.length old - 1) t
          else String c (replace_from old new 0 t)
      end
  end.

(** With an empty [old], Python inserts [new] before every character and
    at the end. *)
Fixpoint insert_after_each (new s : string) : string :=
  match s with
  | EmptyString => EmptyString
  | String c t => String c (new ++ insert_after_each new t)
  end.

(** [s.replace(old, new)]. *)
Definition replace (s old new : string) : string :=
  match old with
  | EmptyString => new ++ insert_after_each new s
  | String _ _ => replace_from old new 0 s
  end.

(** [str.isspace] on one character of the ASCII range: TAB, LF, VT, FF, CR,
    FS, GS, RS, US and the space. *)
Definition isspace (c : ascii) : bool :=
  let n := nat_of_ascii c in
  (((9 <=? n) && (n <=? 13)) || ((28 <=? n) && (n <=? 32)))%nat.

Fixpoint lstrip (s : string) : string :=
  match s with
  | EmptyString => EmptyString
  | String c t => if isspace c then lstrip t else s
  end.

Fixpoint rstrip (s : string) : string :=
  match s with
  | EmptyString => EmptyString
  | String c t =>
      match rstrip t with
      | EmptyString => if isspace c then EmptyString else String c EmptyString
      | r => String c r
      end
  end.

(** [s.strip()]. *)
Definition strip (s : string) : string := rstrip (lstrip s).

Definition lower_char (c : ascii) : ascii :=
  let n := nat_of_ascii c in
  if ((65 <=? n) && (n <=? 90))%nat then ascii_of_nat (n + 32) else c.

(** [s.lower()].  Only the letters A-Z are mapped; no character outside
    the ASCII range lower-cases to one of [t], [r], [u], [e], so the
    comparison the hook makes with ["true"] is unaffected. *)
Fixpoint lower (s : string) : string :=
  match s with
  | EmptyString => EmptyString
  | String c t => String (lower_char c) (lower t)
  end.

Fixpoint all_chars (p : ascii -> bool) (s : string) : bool :=
  match s with
  | EmptyString => true
  | String c t => p c && all_chars p t
  end.

Definition is_ascii (s : string) : bool :=
  all_chars (fun c => (nat_of_ascii c <? 128)%nat) s.

End Py.

(** ** Exceptions and computations *)

Record exn := Exn {
  exn_type : string;
  exn_is_Exception : bool;   (* isinstance(e, Exception) *)
  exn_msg : string;
  exn_traceback : list string
}.

Definition KeyError (k : string) : exn := Exn "KeyError" true k [].
Definition TypeError (m : string) : exn := Exn "TypeError" true m [].
Definition ValueError (m : string) : exn := Exn "ValueError" true m [].
Definition AttributeError (m : string) : exn := Exn "AttributeError" true m [].
Definition UnicodeDecodeError (m : string) : exn := Exn "UnicodeDecodeError" true m [].

Inductive result (A : Type) : Type :=
| Ret (a : A)
| Raise (e : exn).
Arguments Ret {A} a.
Arguments Raise {A} e.

(** A computation over a state [σ]. *)
Definition M (σ A : Type) : Type := σ -> σ * result A.

Definition ret {σ A} (a : A) : M σ A := fun s => (s, Ret a).

Definition raise {σ A} (e : exn) : M σ A := fun s => (s, Raise e).

Definition bind {σ A B} (m : M σ A) (k : A -> M σ B) : M σ B :=
  fun s =>
    match m s with
    | (s', Ret a) => k a s'
    | (s', Raise e) => (s', Raise e)
    end.

Definition gets {σ A} (f : σ -> A) : M σ A := fun s => (s, Ret (f s)).

Definition modify {σ} (f : σ -> σ) : M σ unit := fun s => (f s, Ret tt).

Definition of_result {σ A} (r : result A) : M σ A := fun s => (s, r).

Declare Scope py_scope.
Delimit Scope py_scope with py.
Notation "x <- m ;; k" := (bind m (fun x => k))
  (at level 100, m at next level, right associativity) : py_scope.
Notation "m ;; k" := (bind m (fun _ => k))
  (at level 100, right associativity) : py_scope.
Local Open Scope py_scope.

(** [try: body except Exception as e: handler e].  Only instances of
    [Exception] are caught. *)
Definition try_except {σ A} (body : M σ A) (handler : exn -> M σ A) : M σ A :=
  fun s =>
    match body s with
    | (s', Ret a) => (s', Ret a)
    | (s', Raise e) => if exn_is_Exception e then handler e s' else (s', Raise e)
    end.

(** [try: body finally: fin].  The clause runs on every exit of [body]; an
    exception raised by the clause replaces the pending outcome. *)
Definition try_finally {σ A} (body : M σ A) (fin : M σ unit) : M σ A :=
  fun s =>
    match body s with
    | (s1, r) =>
        match fin s1 with
        | (s2, Ret _) => (s2, r)
        | (s2, Raise e) => (s2, Raise e)
        end
    end.

(** ** Data model *)

(** Python values that cross the hook's interfaces.  [VBytesIO] is a
    reference into the heap of streams; [VObject] is any other object, known
    by its identity and its string-valued attributes (the Lambda context,
    an application, a decorator, a handler). *)
Inductive value : Type :=
| VNone
| VStr (s : string)
| VBytes (b : string)
| VBytesIO (ref : nat)
| VDict (d : gmap string string)
| VObject (id : nat) (attrs : gmap string string).

(** [io.BytesIO]: the buffer, the read position, and whether it is closed. *)
Record BytesIO := mkBytesIO {
  bio_buffer : string;
  bio_pos : nat;
  bio_closed : bool
}.

(** [http.client.HTTPMessage]: the header lines in order of appearance. *)
Definition HTTPMessage := list (string * string).

(** [msg.get(name)]: first header whose name matches, case-insensitively. *)
Fixpoint msg_get (m : HTTPMessage) (name : string) : option string :=
  match m with
  | [] => None
  | (k, v) :: m' =>
      if String.eqb (Py.lower k) (Py.lower name) then Some v else msg_get m' name
  end.

(** What the local variable [headers] of [_request_wrapper] may hold: [None],
    the raw header block, or the parsed message. *)
Inductive headers_val : Type :=
| HNone
| HRaw (b : string)
| HParsed (m : HTTPMessage).

(** Truth value of [headers] in [if headers:]. *)
Definition headers_truthy (h : headers_val) : bool :=
  match h with
  | HNone => false
  | HRaw b => negb (String.eqb b "")
  | HParsed m => negb (Nat.eqb (length m) 0)
  end.

(** Modelled from the spec: the data class [HttpRequest] of
    [parsers.http_data_classes] is not part of this module.  The spec gives
    its fields: host, method, uri, headers (may be absent) and body. *)
Record HttpRequest := mkHttpRequest {
  req_host : option string;
  req_method : option string;
  req_uri : option string;
  req_headers : headers_val;
  req_body : value
}.

(** Modelled from the spec: the trace context [SpansContainer] is not part
    of this module.  The spec lists the operations the hook calls on it; the
    model records each completed call, in order. *)
Inductive span_call : Type :=
| create_span (args : list value)
| span_start
| span_end (ret_val : value)
| add_exception_event (e : exn)
| add_request_event (r : HttpRequest)
| add_unparsed_request (r : HttpRequest)
| update_event_end_time.

Inductive log_entry : Type :=
| LogDebug (msg : string)
| LogException (msg : string) (e : exn).

(** The four wrappers this module installs. *)
Inductive hook : Type :=
| request_hook      (* _request_wrapper *)
| putheader_hook    (* _putheader_wrapper *)
| response_hook     (* _response_wrapper *)
| read_hook.        (* _read_wrapper *)

Record patch := mkPatch {
  patch_module : string;
  patch_name : string;
  patch_wrapper : hook
}.

(** The process state the module reads and writes. *)
Record state := mkState {
  environ : gmap string string;      (* os.environ *)
  already_wrapped : bool;            (* the module global *)
  patches : list patch;              (* wrappers installed so far, oldest first *)
  log : list log_entry;              (* what get_logger() received *)
  builtins_print : list string;      (* prefixes layered over the original print *)
  heap : gmap nat BytesIO;           (* the BytesIO objects alive *)
  span : list span_call              (* calls completed on the trace context *)
}.

Definition set_already_wrapped (b : bool) (s : state) : state :=
  mkState (environ s) b (patches s) (log s) (builtins_print s) (heap s) (span s).

Definition add_patch (p : patch) (s : state) : state :=
  mkState (environ s) (already_wrapped s) (patches s ++ [p]) (log s)
          (builtins_print s) (heap s) (span s).

Definition add_log (e : log_entry) (s : state) : state :=
  mkState (environ s) (already_wrapped s) (patches s) (log s ++ [e])
          (builtins_print s) (heap s) (span s).

Definition set_builtins_print (p : list string) (s : state) : state :=
  mkState (environ s) (already_wrapped s) (patches s) (log s) p (heap s) (span s).

Definition set_heap (h : gmap nat BytesIO) (s : state) : state :=
  mkState (environ s) (already_wrapped s) (patches s) (log s)
          (builtins_print s) h (span s).

Definition add_span_call (c : span_call) (s : state) : state :=
  mkState (environ s) (already_wrapped s) (patches s) (log s)
          (builtins_print s) (heap s) (span s ++ [c]).

(** A Python callable: positional and keyword arguments in, a value out. *)
Definition pyfunc : Type := list value -> gmap string value -> M state value.

(** [http.client.HTTPConnection] as the hook sees it: [host] and [_method]
    read through [getattr(..., None)], [_http_vsn_str] read directly. *)
Record HTTPConnection := mkConnection {
  conn_host : option string;
  conn_method : option string;
  conn_http_vsn_str : option string
}.

(** ** Collaborators

    What the module imports and does not define.  Each may fail; the
    interface leaves open when. *)
Class Collaborators := {
  (* http.client.parse_headers applied to the header lines *)
  parse_headers : string -> result HTTPMessage;
  (* whether a call on the trace context raises in a given process state *)
  span_raises : span_call -> state -> option exn;
  (* SpansContainer.get_span().get_patched_root() *)
  get_patched_root : state -> result string;
  (* whether wrapt fails to resolve module.name in a given process state *)
  wrapt_raises : string -> string -> state -> option exn;
  (* utils.is_enhanced_print() and utils.is_aws_environment() *)
  is_enhanced_print : state -> result bool;
  is_aws_environment : state -> result bool;
  (* utils.config, called with the decorator's arguments *)
  config : list value -> gmap string value -> M state unit;
  (* attribute lookup and call on objects of the host framework *)
  py_getattribute : value -> string -> M state value;
  py_call : value -> list value -> gmap string value -> M state value
}.

(** ** Module constants *)

Definition _FLAGS_HEADER_SPLITTER : string :=
  String "013"%char (String "010"%char EmptyString).
Definition _BODY_HEADER_SPLITTER : string :=
  _FLAGS_HEADER_SPLITTER ++ _FLAGS_HEADER_SPLITTER.
Definition _KILL_SWITCH : string := "LUMIGO_SWITCH_OFF".
Definition MAX_READ_SIZE : nat := 1024.

(** ** Local variables and guarded blocks *)

(** A function body runs over its local variables [L] and the process
    state. *)
Definition lift {L A} (m : M state A) : M (L * state) A :=
  fun fs => match m (snd fs) with (s', r) => ((fst fs, s'), r) end.

Definition local {L A} (f : L -> A) : M (L * state) A :=
  fun fs => (fs, Ret (f (fst fs))).

Definition assign {L} (f : L -> L) : M (L * state) unit :=
  fun fs => ((f (fst fs), snd fs), Ret tt).

Definition with_locals {L A} (l0 : L) (m : M (L * state) A) : M state A :=
  fun s => match m (l0, s) with (fs, r) => (snd fs, r) end.

(** Modelled from the spec: the context manager [utils.lumigo_safe_execute]
    is not part of this module.  The spec has every observation step run
    under a guard that catches and logs whatever the step raises; what the
    step did before raising (assignments included) stays done. *)
Definition lumigo_safe_execute {L} (part_name : string)
    (body : M (L * state) unit) : M (L * state) unit :=
  fun fs =>
    match body fs with
    | (fs', Ret _) => (fs', Ret tt)
    | (fs', Raise e) =>
        ((fst fs', add_log (LogException part_name e) (snd fs')), Ret tt)
    end.

Definition logger_debug (msg : string) : M state unit :=
  modify (add_log (LogDebug msg)).

Definition logger_exception (msg : string) (e : exn) : M state unit :=
  modify (add_log (LogException msg e)).

(** Modelled from the spec: [parsers.utils.safe_get] is not part of this
    module; it indexes and yields [None] where the index is absent. *)
Definition safe_get (args : list value) (i : nat) : value :=
  match args !! i with
  | Some v => v
  | None => VNone
  end.

(** ** io.BytesIO *)

Definition bio_tell (ref : nat) : M state nat :=
  fun s =>
    match heap s !! ref with
    | Some b =>
        if bio_closed b then (s, Raise (ValueError "I/O operation on closed file."))
        else (s, Ret (bio_pos b))
    | None => (s, Raise (ValueError "no such stream"))
    end.

(** [read(size)]: the bytes from the position on, at most [size] of them;
    the position advances by what was read. *)
Definition bio_read (ref size : nat) : M state string :=
  fun s =>
    match heap s !! ref with
    | Some b =>
        if bio_closed b then (s, Raise (ValueError "I/O operation on closed file."))
        else
          let chunk := Py.take size (Py.drop (bio_pos b) (bio_buffer b)) in
          (set_heap (<[ref := mkBytesIO (bio_buffer b)
                                        (bio_pos b + String.length chunk) false]> (heap s)) s,
           Ret chunk)
    | None => (s, Raise (ValueError "no such stream"))
    end.

Definition bio_seek (ref pos : nat) : M state nat :=
  fun s =>
    match heap s !! ref with
    | Some b =>
        if bio_closed b then (s, Raise (ValueError "I/O operation on closed file."))
        else (set_heap (<[ref := mkBytesIO (bio_buffer b) pos false]> (heap s)) s, Ret pos)
    | None => (s, Raise (ValueError "no such stream"))
    end.

(** ** The wrappers *)

(** Local variables of [_request_wrapper]. *)
Record request_locals := mkLocals {
  rl_data : value;
  rl_host : option string;
  rl_method : option string;
  rl_headers : headers_val;
  rl_body : value;
  rl_uri : option string
}.

Definition set_data (v : value) (l : request_locals) : request_locals :=
  mkLocals v (rl_host l) (rl_method l) (rl_headers l) (rl_body l) (rl_uri l).
Definition set_host (h : option string) (l : request_locals) : request_locals :=
  mkLocals (rl_data l) h (rl_method l) (rl_headers l) (rl_body l) (rl_uri l).
Definition set_headers (h : headers_val) (l : request_locals) : request_locals :=
  mkLocals (rl_data l) (rl_host l) (rl_method l) h (rl_body l) (rl_uri l).
Definition set_body (b : value) (l : request_locals) : request_locals :=
  mkLocals (rl_data l) (rl_host l) (rl_method l) (rl_headers l) b (rl_uri l).
Definition set_uri (u : option string) (l : request_locals) : request_locals :=
  mkLocals (rl_data l) (rl_host l) (rl_method l) (rl_headers l) (rl_body l) u.

(** [a, b = xs]. *)
Definition unpack2 {σ} (xs : list string) : M σ (string * string) :=
  match xs with
  | [a; b] => ret (a, b)
  | _ => raise (ValueError "wrong number of values to unpack")
  end.

(** [b.decode("ascii")]. *)
Definition decode_ascii {σ} (b : string) : M σ string :=
  if Py.is_ascii b then ret b
  else raise (UnicodeDecodeError "ordinal not in range(128)").

(** [text.replace(old, new)] where [old] may be [None]. *)
Definition str_replace {σ} (text : string) (old : option string) (new : string)
    : M σ string :=
  match old with
  | Some o => ret (Py.replace text o new)
  | None => raise (TypeError "replace() argument 1 must be str, not None")
  end.

(** [instance._http_vsn_str]. *)
Definition http_vsn_str {σ} (instance : HTTPConnection) : M σ string :=
  match conn_http_vsn_str instance with
  | Some v => ret v
  | None => raise (AttributeError "_http_vsn_str")
  end.

(** [f"{host}"]. *)
Definition format_opt (h : option string) : string :=
  match h with
  | Some s => s
  | None => "None"
  end.

(** [host or fallback]. *)
Definition or_else (h fallback : option string) : option string :=
  match h with
  | Some EmptyString => fallback
  | Some s => Some s
  | None => fallback
  end.

Section SyncHook.
Context `{C : Collaborators}.

(** One call on the trace context: it raises, or it completes and is
    recorded. *)
Definition span_do (c : span_call) : M state unit :=
  fun s =>
    match span_raises c s with
    | Some e => (s, Raise e)
    | None => (add_span_call c s, Ret tt)
    end.

(** Modelled from the spec: [libs.wrapt.wrap_function_wrapper] is not part
    of this module.  It patches one entry point with a wrapper, or raises
    when the entry point cannot be resolved. *)
Definition wrap_function_wrapper (module name : string) (wrapper : hook)
    : M state unit :=
  fun s =>
    match wrapt_raises module name s with
    | Some e => (s, Raise e)
    | None => (add_patch (mkPatch module name wrapper) s, Ret tt)
    end.

(** Lines 31-35: the block guarded as "parse requested streams". *)
Definition parse_requested_streams (args : list value)
    : M (request_locals * state) unit :=
  data <- local rl_data;;
  match data with
  | VBytesIO ref =>
      current_pos <- lift (bio_tell ref);;
      chunk <- lift (bio_read ref MAX_READ_SIZE);;
      assign (set_data (VBytes chunk));;
      match args !! 0 with
      | Some (VBytesIO ref0) => lift (bio_seek ref0 current_pos);; ret tt
      | _ => raise (AttributeError "seek")
      end
  | _ => ret tt
  end.

(** Lines 45-58: the block guarded as "parse request". *)
Definition parse_request (instance : HTTPConnection)
    : M (request_locals * state) unit :=
  data <- local rl_data;;
  match data with
  | VBytes d =>
      if Py.contains _BODY_HEADER_SPLITTER d then
        hb <- unpack2 (Py.split1 d _BODY_HEADER_SPLITTER);;
        assign (set_headers (HRaw (fst hb)));;
        assign (set_body (VBytes (snd hb)));;
        if Py.contains _FLAGS_HEADER_SPLITTER (fst hb) then
          rh <- unpack2 (Py.split1 (fst hb) _FLAGS_HEADER_SPLITTER);;
          assign (set_headers (HRaw (snd rh)));;
          m <- of_result (parse_headers (snd rh));;
          assign (set_headers (HParsed m));;
          text <- decode_ascii (fst rh);;
          method <- local rl_method;;
          no_method <- str_replace text method "";;
          version <- http_vsn_str instance;;
          path_and_query_params <- ret (Py.strip (Py.replace no_method version ""));;
          host <- local rl_host;;
          assign (set_uri (Some (format_opt host +:+ path_and_query_params)));;
          assign (set_host (or_else host (msg_get m "Host")))
        else ret tt
      else ret tt
  | _ => ret tt
  end.

(** Lines 61-68: the block guarded as "add request event". *)
Definition add_request (_ : unit) : M (request_locals * state) unit :=
  l <- local (fun l => l);;
  if headers_truthy (rl_headers l) then
    lift (span_do (add_request_event
            (mkHttpRequest (rl_host l) (rl_method l) (rl_uri l) (rl_headers l) (rl_body l))))
  else
    lift (span_do (add_unparsed_request
            (mkHttpRequest (rl_host l) (rl_method l) (rl_uri l) HNone (rl_data l)))).

(** Lines 30-68: everything [_request_wrapper] does before the real call. *)
Definition request_prologue (instance : HTTPConnection) (args : list value)
    : M (request_locals * state) unit :=
  lumigo_safe_execute "parse requested streams" (parse_requested_streams args);;
  assign (fun l => mkLocals (rl_data l) (conn_host instance) (conn_method instance)
                            HNone VNone None);;
  lumigo_safe_execute "parse request" (parse_request instance);;
  lumigo_safe_execute "add request event" (add_request tt).

(** Lines 70-73: the real call and the end-time mark. *)
Definition request_epilogue (func : pyfunc) (args : list value)
    (kwargs : gmap string value) : M (request_locals * state) value :=
  ret_val <- lift (func args kwargs);;
  lumigo_safe_execute "add response event" (lift (span_do update_event_end_time));;
  ret ret_val.

Definition initial_locals (args : list value) : request_locals :=
  mkLocals (safe_get args 0) None None HNone VNone None.

Definition _request_wrapper (func : pyfunc) (instance : HTTPConnection)
    (args : list value) (kwargs : gmap string value) : M state value :=
  with_locals (initial_locals args)
    (request_prologue instance args;;
     request_epilogue func args kwargs).

(** [d[key] = v] on a value: only a dict accepts it. *)
Definition setitem (target : value) (key v : string) : M state value :=
  match target with
  | VDict d => ret (VDict (<[key := v]> d))
  | _ => raise (TypeError "object does not support item assignment")
  end.

(** Lines 102-109.  The header dict is updated in place in the source; here
    the updated dict takes its place in [kwargs]. *)
Definition _putheader_wrapper (func : pyfunc) (instance : value)
    (args : list value) (kwargs : gmap string value) : M state value :=
  root <- (fun s => (s, get_patched_root s));;
  h <- match kwargs !! "headers" with
       | Some h => ret h
       | None => raise (KeyError "headers")
       end;;
  h' <- setitem h "X-Amzn-Trace-Id" root;;
  ret_val <- func args (<["headers" := h']> kwargs);;
  ret ret_val.

(** Lines 217-222: the block guarded as "wrap http calls". *)
Definition install (_ : unit) : M (unit * state) unit :=
  lift (logger_debug "wrapping the http request");;
  lift (wrap_function_wrapper "http.client" "HTTPConnection.send" request_hook);;
  lift (wrap_function_wrapper "botocore.awsrequest" "AWSRequest.__init__" putheader_hook);;
  lift (wrap_function_wrapper "http.client" "HTTPConnection.getresponse" response_hook);;
  lift (wrap_function_wrapper "http.client" "HTTPResponse.read" read_hook);;
  lift (modify (set_already_wrapped true)).

(** Lines 213-222. *)
Definition wrap_http_calls : M state unit :=
  wrapped <- gets already_wrapped;;
  if negb wrapped then
    with_locals tt (lumigo_safe_execute "wrap http calls" (install tt))
  else ret tt.

(** Local variables of [lambda_wrapper]. *)
Record wrapper_locals := mkWrapperLocals {
  executed : bool;
  ret_val : value;
  local_print : list string
}.

Definition set_executed (b : bool) (l : wrapper_locals) : wrapper_locals :=
  mkWrapperLocals b (ret_val l) (local_print l).
Definition set_ret_val (v : value) (l : wrapper_locals) : wrapper_locals :=
  mkWrapperLocals (executed l) v (local_print l).

(** [getattr(obj, name, default)] for a string-valued attribute. *)
Definition getattr_default (obj : value) (name default : string) : string :=
  match obj with
  | VObject _ attrs =>
      match attrs !! name with
      | Some v => v
      | None => default
      end
  | _ => default
  end.

(** Line 115: [str(os.environ.get(_KILL_SWITCH, "")).lower() == "true"]. *)
Definition kill_switch_on (s : state) : bool :=
  String.eqb
    (Py.lower (match environ s !! _KILL_SWITCH with
               | Some v => v
               | None => EmptyString
               end))
    "true".

(** Lines 123-132: what the wrapper does before the wrapped function runs. *)
Definition pre_run (args : list value) : M (wrapper_locals * state) unit :=
  enhanced <- lift (fun s => (s, is_enhanced_print s));;
  (if enhanced then
     if (2 <=? length args)%nat then
       let request_id := getattr_default (safe_get args 1) "aws_request_id" "" in
       let prefix := "RequestId: " +:+ request_id in
       lp <- local local_print;;
       lift (modify (set_builtins_print (prefix :: lp)))
     else ret tt
   else ret tt);;
  lift (span_do (create_span args));;
  lift (span_do span_start);;
  lift wrap_http_calls.

(** Lines 133-143: the wrapped function under the inner
    [try/except/finally]. *)
Definition run (func : pyfunc) (args : list value) (kwargs : gmap string value)
    : M (wrapper_locals * state) value :=
  try_finally
    (try_except
       (assign (set_executed true);;
        v <- lift (func args kwargs);;
        assign (set_ret_val v))
       (fun e => lift (span_do (add_exception_event e));; raise e))
    (rv <- local ret_val;;
     lift (span_do (span_end rv));;
     lp <- local local_print;;
     lift (modify (set_builtins_print lp)));;
  local ret_val.

(** Lines 118-150: the wrapper with the kill switch off. *)
Definition traced_call (func : pyfunc) (args : list value)
    (kwargs : gmap string value) : M state value :=
  lp <- gets builtins_print;;
  with_locals (mkWrapperLocals false VNone lp)
    (try_except
       (pre_run args;; run func args kwargs)
       (fun e =>
          was_executed <- local executed;;
          if negb was_executed then
            lift (logger_exception "exception in the wrapper" e);;
            lift (func args kwargs)
          else raise e)).

(** Lines 114-150. *)
Definition lambda_wrapper (func : pyfunc) (args : list value)
    (kwargs : gmap string value) : M state value :=
  off <- gets kill_switch_on;;
  if off then func args kwargs else traced_call func args kwargs.

Definition _lumigo_tracer (func : pyfunc) : pyfunc := lambda_wrapper func.

(** Lines 155-166. *)
Definition lumigo_tracer (args : list value) (kwargs : gmap string value)
    : M state (pyfunc -> pyfunc) :=
  config args kwargs;;
  ret _lumigo_tracer.

(** ** The Chalice adapter *)

Definition DECORATORS_OF_NEW_HANDLERS : list string :=
  ["on_s3_event"; "on_sns_message"; "on_sqs_message"; "schedule"; "lambda_function"].

(** An instance of [LumigoChalice].  [original_app_attr_getter] is
    [py_getattribute app] and [lumigo_app] is [lumigo_app_of] below. *)
Record LumigoChalice := mkLumigoChalice {
  lumigo_conf_args : list value;
  lumigo_conf_kwargs : gmap string value;
  app : value
}.

Definition lumigo_app_of (self : LumigoChalice) : pyfunc :=
  _lumigo_tracer (py_call (app self)).

(** Lines 179-184. *)
Definition LumigoChalice_init (app0 : value) (args : list value)
    (kwargs : gmap string value) : M state LumigoChalice :=
  lumigo_tracer args kwargs;;
  ret (mkLumigoChalice args kwargs app0).

(** What [__getattr__] returns: the attribute of the wrapped object, or the
    closure [get_decorator] with the variables it captures. *)
Inductive attribute : Type :=
| Forwarded (original_attr : value)
| GetDecorator (self : LumigoChalice) (original_attr : value).

(** The closure [wrapper2] with the variables it captures. *)
Record wrapper2_closure := mkWrapper2 {
  w2_self : LumigoChalice;
  w2_chalice_actual_decorator : value
}.

(** Lines 186-205. *)
Definition __getattr__ (self : LumigoChalice) (item : string) : M state attribute :=
  original_attr <- py_getattribute (app self) item;;
  aws <- (fun s => (s, is_aws_environment s));;
  if aws && bool_decide (item ∈ DECORATORS_OF_NEW_HANDLERS)
  then ret (GetDecorator self original_attr)
  else ret (Forwarded original_attr).

(** Lines 190-202. *)
Definition get_decorator (self : LumigoChalice) (original_attr : value)
    (args : list value) (kwargs : gmap string value) : M state wrapper2_closure :=
  chalice_actual_decorator <- py_call original_attr args kwargs;;
  ret (mkWrapper2 self chalice_actual_decorator).

(** Lines 194-200. *)
Definition wrapper2 (w : wrapper2_closure) (func : value) : M state LumigoChalice :=
  user_func_wrapped_by_chalice <- py_call (w2_chalice_actual_decorator w) [func] ∅;;
  LumigoChalice_init user_func_wrapped_by_chalice
    (lumigo_conf_args (w2_self w)) (lumigo_conf_kwargs (w2_self w)).

End SyncHook.

(** ** The spec's reading of the kill switch *)

(** Two characters are the same letter up to case. *)
Definition same_letter (c d : ascii) : bool :=
  let n := nat_of_ascii c in
  let m := nat_of_ascii d in
  ((n =? m)
   || ((65 <=? n) && (n <=? 90) && (m =? n + 32))
   || ((65 <=? m) && (m <=? 90) && (n =? m + 32)))%nat.

(** "Compared case-insensitively against the literal": equal character by
    character, up to the case of letters. *)
Fixpoint eq_ignore_case (a b : string) : bool :=
  match a, b with
  | EmptyString, EmptyString => true
  | String c a', String d b' => same_letter c d && eq_ignore_case a' b'
  | _, _ => false
  end.

(** ** Concrete collaborators, for examples *)

(** Header lines cut at each CRLF. *)
Fixpoint crlf_lines (cur s : string) : list string :=
  match s with
  | EmptyString => [cur]
  | String c t =>
      match t with
      | String d t' =>
          if Ascii.eqb c "013"%char && Ascii.eqb d "010"%char
          then cur :: crlf_lines EmptyString t'
          else crlf_lines (cur +:+ String c EmptyString) t
      | EmptyString => [cur +:+ String c EmptyString]
      end
  end.

Fixpoint header_fields (ls : list string) : HTTPMessage :=
  match ls with
  | [] => []
  | l :: ls' =>
      if String.eqb l "" then []
      else match Py.partition1 ":" l with
           | Some (k, v) => (k, Py.strip v) :: header_fields ls'
           | None => header_fields ls'
           end
  end.

(** [http.client.parse_headers] on well-formed [Name: value] lines: one
    field per line up to the first empty line. *)
Definition simple_parse_headers (b : string) : result HTTPMessage :=
  Ret (header_fields (crlf_lines EmptyString b)).

(** Collaborators that behave, except where the two oracles say a call on
    the trace context or a patch fails. *)
Definition collaborators
    (span_fail : span_call -> state -> option exn)
    (wrapt_fail : string -> string -> state -> option exn) : Collaborators :=
  {| parse_headers := simple_parse_headers;
     span_raises := span_fail;
     get_patched_root := fun _ => Ret "Root=1-5e1b4151-5ac6c58f";
     wrapt_raises := wrapt_fail;
     is_enhanced_print := fun _ => Ret false;
     is_aws_environment :=
       fun s => Ret (bool_decide (is_Some (environ s !! "LAMBDA_RUNTIME_DIR")));
     config := fun _ _ => ret tt;
     py_getattribute :=
       fun v item =>
         match v with
         | VObject id attrs =>
             match attrs !! item with
             | Some _ => ret (VObject (S id) {[ "__name__" := item ]})
             | None => raise (AttributeError item)
             end
         | _ => raise (AttributeError item)
         end;
     py_call :=
       fun f _ _ =>
         match f with
         | VObject id attrs => ret (VObject (S id) attrs)
         | _ => raise (TypeError "object is not callable")
         end |}.

Definition never {A B} : A -> B -> option exn := fun _ _ => None.
Definition never3 {A B D} : A -> B -> D -> option exn := fun _ _ _ => None.

Definition well_behaved : Collaborators := collaborators never never3.

Definition empty_state : state := mkState ∅ false [] [] [] ∅ [].

Definition with_environ (k v : string) (s : state) : state :=
  mkState (<[k := v]> (environ s)) (already_wrapped s) (patches s) (log s)
          (builtins_print s) (heap s) (span s).

(** A handler that returns its first argument. *)
Definition echo_handler : pyfunc := fun args _ => ret (safe_get args 0).

(** A handler that raises. *)
Definition boom : exn := Exn "RuntimeError" true "boom" ["handler.py:3"].
Definition failing_handler : pyfunc := fun _ _ => raise boom.

Definition tracing_broke : exn := Exn "RuntimeError" true "tracing broke" [].

(** A trace context on which [create_span] fails. *)
Definition create_span_fails : span_call -> state -> option exn :=
  fun c _ =>
    match c with
    | create_span _ => Some tracing_broke
    | _ => None
    end.

(** A process in which botocore cannot be imported. *)
Definition no_botocore : string -> string -> state -> option exn :=
  fun module _ _ =>
    if String.eqb module "botocore.awsrequest"
    then Some (Exn "ModuleNotFoundError" true "No module named 'botocore'" [])
    else None.

(** The spec's example request and two variations. *)
Definition example_request : string :=
  "GET /foo?x=1 HTTP/1.1" +:+ _FLAGS_HEADER_SPLITTER
  +:+ "Host: example.com" +:+ _BODY_HEADER_SPLITTER.

Definition getters_request : string :=
  "GET /GETters HTTP/1.1" +:+ _FLAGS_HEADER_SPLITTER
  +:+ "Host: example.com" +:+ _BODY_HEADER_SPLITTER.

Definition continuation_write : string := "{'partial': 'body bytes'}".

Definition example_connection : HTTPConnection :=
  mkConnection (Some "example.com") (Some "GET") (Some "HTTP/1.1").

(** The event and the context a Lambda runtime passes to a handler. *)
Definition lambda_args : list value :=
  [VStr "event"; VObject 7 {[ "aws_request_id" := "req-1" ]}].

(** A process holding one stream, already read up to position 5. *)
Definition stream_state : state :=
  mkState ∅ false [] [] [] {[ 3 := mkBytesIO example_request 5 false ]} [].

(** A Chalice application with a [schedule] and a [route] attribute, and its
    adapter. *)
Definition chalice_app : value :=
  VObject 1 (<["schedule" := "decorator factory"]> {[ "route" := "decorator factory" ]}).

Definition adapter : LumigoChalice := mkLumigoChalice [VStr "token"] ∅ chalice_app.

Definition four_patches : list patch :=
  [ mkPatch "http.client" "HTTPConnection.send" request_hook;
    mkPatch "botocore.awsrequest" "AWSRequest.__init__" putheader_hook;
    mkPatch "http.client" "HTTPConnection.getresponse" response_hook;
    mkPatch "http.client" "HTTPResponse.read" read_hook ].

(** [n] calls of a computation in a row. *)
Fixpoint repeat_call {σ} (n : nat) (m : M σ unit) : M σ unit :=
  match n with
  | O => ret tt
  | S k => m;; repeat_call k m
  end.

(** The outcome of the steps that precede the wrapped function, started
    from the wrapper's initial local variables. *)
Definition pre_run_outcome `{C : Collaborators} (args : list value)
    : M state unit :=
  fun s => with_locals (mkWrapperLocals false VNone (builtins_print s)) (pre_run args) s.

(** The local variables and the process state at the moment
    [_request_wrapper] makes the real call. *)
Definition locals_at_send `{C : Collaborators} (instance : HTTPConnection)
    (args : list value) (s : state) : request_locals :=
  fst (fst (request_prologue instance args (initial_locals args, s))).

Definition state_at_send `{C : Collaborators} (instance : HTTPConnection)
    (args : list value) (s : state) : state :=
  snd (fst (request_prologue instance args (initial_locals args, s))).

(** Line 71-72 after a real call that returned: the end-time mark, or the
    logged failure to make it. *)
Definition mark_end_time `{C : Collaborators} (s : state) : state :=
  match span_raises update_event_end_time s with
  | Some e => add_log (LogException "add response event" e) s
  | None => add_span_call update_event_end_time s
  end.

(** Everything but the log and the trace context is the same. *)
Definition same_process (s s' : state) : Prop :=
  environ s' = environ s
  /\ already_wrapped s' = already_wrapped s
  /\ patches s' = patches s
  /\ builtins_print s' = builtins_print s
  /\ heap s' = heap s.

(** A block that leaves the process state alone. *)
Definition pure_block {L A} (m : M (L * state) A) : Prop :=
  forall fs, snd (fst (m fs)) = snd fs.

(** ** The response hooks and the adapter's call *)

(** Modelled from the spec: the response side of the trace context
    ([SpansContainer.get_span()] and [update_event_response(host, status,
    headers, body)]) is not part of this module.  Both are computations on
    the process state that may raise. *)
Class ResponseTrace := {
  get_span : M state unit;
  update_event_response : value -> value -> value -> value -> M state unit
}.

(** Truth value of a value in [if ret_val:].  An object without [__bool__]
    or [__len__] is true. *)
Definition truthy (v : value) : bool :=
  match v with
  | VNone => false
  | VStr s => negb (String.eqb s "")
  | VBytes b => negb (String.eqb b "")
  | VBytesIO _ => true
  | VDict d => negb (bool_decide (d = ∅))
  | VObject _ _ => true
  end.

Section ResponseHooks.
Context `{C : Collaborators} `{R : ResponseTrace}.

(** Lines 83-85: the block guarded as "parse response". *)
Definition parse_response (instance ret_val : value) : M (unit * state) unit :=
  headers <- lift (py_getattribute ret_val "headers");;
  status_code <- lift (py_getattribute ret_val "code");;
  lift get_span;;
  host <- lift (py_getattribute instance "host");;
  lift (update_event_response host status_code headers (VBytes "")).

(** Lines 76-86. *)
Definition _response_wrapper (func : pyfunc) (instance : value)
    (args : list value) (kwargs : gmap string value) : M state value :=
  with_locals tt
    (ret_val <- lift (func args kwargs);;
     lumigo_safe_execute "parse response" (parse_response instance ret_val);;
     ret ret_val).

(** Lines 96-98: the block guarded as "parse response.read". *)
Definition parse_response_read (instance ret_val : value) : M (unit * state) unit :=
  lift get_span;;
  code <- lift (py_getattribute instance "code");;
  headers <- lift (py_getattribute instance "headers");;
  lift (update_event_response VNone code headers ret_val).

(** Lines 89-99. *)
Definition _read_wrapper (func : pyfunc) (instance : value)
    (args : list value) (kwargs : gmap string value) : M state value :=
  with_locals tt
    (ret_val <- lift (func args kwargs);;
     (if truthy ret_val
      then lumigo_safe_execute "parse response.read" (parse_response_read instance ret_val)
      else ret tt);;
     ret ret_val).

(** [getattr(obj, name, None)]: an AttributeError becomes [None]; [None]
    itself has neither of the two attributes the adapter asks for. *)
Definition getattr_or_none (obj : value) (name : string) : M state value :=
  match obj with
  | VNone => ret VNone
  | _ =>
      fun s =>
        match py_getattribute obj name s with
        | (s', Ret v) => (s', Ret v)
        | (s', Raise e) =>
            if String.eqb (exn_type e) "AttributeError" then (s', Ret VNone)
            else (s', Raise e)
        end
  end.

(** Lines 207-210. *)
Definition __call__ (self : LumigoChalice) (args : list value)
    (kwargs : gmap string value) : M state value :=
  if (length args <? 2)%nat && negb (bool_decide (is_Some (kwargs !! "context")))
  then
    current_request <- getattr_or_none (app self) "current_request";;
    context <- getattr_or_none current_request "context";;
    lumigo_app_of self args (<["context" := context]> kwargs)
  else lumigo_app_of self args kwargs.

End ResponseHooks.

(** Line 126: the prefix of the enhanced print. *)
Definition request_id_prefix (args : list value) : string :=
  "RequestId: " +:+ getattr_default (safe_get args 1) "aws_request_id" "".

(** The patch of [HTTPConnection.send], the first the installer makes. *)
Definition send_patch : patch :=
  mkPatch "http.client" "HTTPConnection.send" request_hook.

(** ** More concrete collaborators *)

(** A response side that notes each update in the log. *)
Definition noting_trace : ResponseTrace :=
  {| get_span := ret tt;
     update_event_response :=
       fun _ _ _ _ => modify (add_log (LogDebug "update_event_response")) |}.

(** A response side without a span. *)
Definition no_span_trace : ResponseTrace :=
  {| get_span := raise tracing_broke;
     update_event_response := fun _ _ _ _ => ret tt |}.

Definition http_connection : value := VObject 10 {[ "host" := "example.com" ]}.

Definition http_response : value :=
  VObject 20 (<["code" := "200"]> {[ "headers" := "Content-Type: text/plain" ]}).

(** [getresponse()] and [read()] stand-ins. *)
Definition getresponse_stub : pyfunc := fun _ _ => ret http_response.
Definition read_stub (body : string) : pyfunc := fun _ _ => ret (VBytes body).

(** Collaborators with enhanced print switched on. *)
Definition enhanced_print_on
    (span_fail : span_call -> state -> option exn) : Collaborators :=
  {| parse_headers := simple_parse_headers;
     span_raises := span_fail;
     get_patched_root := fun _ => Ret "Root=1-5e1b4151-5ac6c58f";
     wrapt_raises := never3;
     is_enhanced_print := fun _ => Ret true;
     is_aws_environment := fun _ => Ret true;
     config := fun _ _ => ret tt;
     py_getattribute := fun _ item => raise (AttributeError item);
     py_call := fun _ _ _ => ret VNone |}.

(** A trace context that is out of order: every call on it raises. *)
Definition span_always_fails : span_call -> state -> option exn :=
  fun _ _ => Some tracing_broke.

(** A trace context on which only [end] fails. *)
Definition span_end_fails : span_call -> state -> option exn :=
  fun c _ =>
    match c with
    | span_end _ => Some tracing_broke
    | _ => None
    end.

(** A trace context on which only [add_exception_event] fails. *)
Definition add_exception_event_fails : span_call -> state -> option exn :=
  fun c _ =>
    match c with
    | add_exception_event _ => Some tracing_broke
    | _ => None
    end.

(** Collaborators whose trace context cannot hand out a patched root. *)
Definition no_patched_root : Collaborators :=
  {| parse_headers := simple_parse_headers;
     span_raises := never;
     get_patched_root := fun _ => Raise tracing_broke;
     wrapt_raises := never3;
     is_enhanced_print := fun _ => Ret false;
     is_aws_environment := fun _ => Ret false;
     config := fun _ _ => ret tt;
     py_getattribute := fun _ item => raise (AttributeError item);
     py_call := fun _ _ _ => ret VNone |}.

(** A process in which nothing can be patched. *)
Definition nothing_resolves : string -> string -> state -> option exn :=
  fun _ _ _ => Some (Exn "ImportError" true "cannot resolve" []).

(** A handler that exits the interpreter. *)
Definition system_exit : exn := Exn "SystemExit" false "0" [].
Definition exiting_handler : pyfunc := fun _ _ => raise system_exit.

(** A request whose header block is the request line alone, one with a
    byte outside ASCII in its request line, and a stream holding the
    example request. *)
Definition bare_request : string := "GET / HTTP/1.1" +:+ _BODY_HEADER_SPLITTER.

Definition latin1_request : string :=
  String "233"%char "GET /caf HTTP/1.1" +:+ _FLAGS_HEADER_SPLITTER
  +:+ "Host: example.com" +:+ _BODY_HEADER_SPLITTER.

Definition fresh_stream_state : state :=
  mkState ∅ false [] [] [] {[ 3 := mkBytesIO example_request 0 false ]} [].

(** ** The spec's reading of the path derivation *)

(** "Removing every occurrence of a token": reading left to right, where
    the token starts it is dropped and reading resumes after it; where it
    does not start, the character is kept. *)
Inductive deletes_occurrences (token : string) : string -> string -> Prop :=
| deletes_end : deletes_occurrences token "" ""
| deletes_here s r :
    deletes_occurrences token s r ->
    deletes_occurrences token (token +:+ s) r
| deletes_keep c s r :
    Py.startswith token (String c s) = false ->
    deletes_occurrences token s r ->
    deletes_occurrences token (String c s) (String c r).

(** ** Proof support *)

(** Case analysis on the 256 characters. *)
Ltac by_char c := destruct c as [[] [] [] [] [] [] [] []]; reflexivity.

(** Unfold the combinators of a computation. *)
Ltac unfold_monad :=
  unfold logger_debug, logger_exception in *;
  unfold bind, lift, local, assign, ret, raise, gets, modify, of_result,
    with_locals, lumigo_safe_execute, try_except, try_finally in *;
  cbn [fst snd] in *.

Ltac case_wrapt :=
  match goal with
  | |- context [wrapt_raises ?m ?n ?s] =>
      let E := fresh "E" in destruct (wrapt_raises m n s) eqn:E; cbn [fst snd]
  end.

(** Facts of the form [pure_block m]. *)
Create HintDb pure discriminated.

(** ** Properties *)

(** *** Strings *)

Lemma append_cons c a b : String c a +:+ b = String c (a +:+ b).
Proof. reflexivity. Qed.

Lemma append_nil b : "" +:+ b = b.
Proof. reflexivity. Qed.

Lemma startswith_app p s : Py.startswith p (p +:+ s) = true.
Proof.
  induction p as [|c p IH]; [reflexivity|].
  rewrite append_cons. cbn [Py.startswith].
  rewrite Ascii.eqb_refl. exact IH.
Qed.

Lemma startswith_drop p s :
  Py.startswith p s = true -> s = p +:+ Py.drop (String.length p) s.
Proof.
  revert s. induction p as [|c p IH]; intros s H; [reflexivity|].
  destruct s as [|d s]; cbn in H; [discriminate|].
  destruct (Ascii.eqb c d) eqn:E; [|discriminate].
  apply Ascii.eqb_eq in E. subst d.
  cbn [String.length Py.drop]. rewrite append_cons. f_equal. apply IH, H.
Qed.

Lemma drop_app p s : Py.drop (String.length p) (p +:+ s) = s.
Proof.
  induction p as [|c p IH]; [reflexivity|].
  rewrite append_cons. cbn [String.length Py.drop]. exact IH.
Qed.

Lemma partition1_contains sep s a b :
  Py.partition1 sep s = Some (a, b) -> Py.contains sep s = true.
Proof.
  revert a b. induction s as [|c s IH]; intros a b H; cbn in *.
  - destruct (Py.startswith sep ""); [reflexivity | discriminate].
  - destruct (Py.startswith sep (String c s)); [reflexivity|].
    destruct (Py.partition1 sep s) as [[a' b']|]; [|discriminate].
    cbn. eapply IH. reflexivity.
Qed.

Lemma contains_partition1 sep s :
  Py.contains sep s = true -> exists a b, Py.partition1 sep s = Some (a, b).
Proof.
  induction s as [|c s IH]; intros H; cbn in *.
  - destruct (Py.startswith sep ""); [eauto | discriminate].
  - destruct (Py.startswith sep (String c s)); [eauto|].
    cbn in H. destruct (IH H) as (a & b & ->). eauto.
Qed.


(** The cut is at the first occurrence: the separator starts nowhere
    inside the first part. *)
Lemma partition1_first sep s a b i :
  Py.partition1 sep s = Some (a, b) ->
  i < String.length a ->
  Py.startswith sep (Py.drop i s) = false.
Proof.
  revert a b i. induction s as [|c s IH]; intros a b i H Hi; cbn in H.
  - destruct (Py.startswith sep ""); [|discriminate].
    injection H as <- <-. cbn in Hi. lia.
  - destruct (Py.startswith sep (String c s)) eqn:E.
    + injection H as <- <-. cbn in Hi. lia.
    + destruct (Py.partition1 sep s) as [[a' b']|] eqn:E'; [|discriminate].
      injection H as <- <-. destruct i as [|i]; [exact E|].
      cbn. eapply IH; [reflexivity|]. cbn in Hi. lia.
Qed.

Lemma split1_partition sep s a b :
  Py.partition1 sep s = Some (a, b) -> Py.split1 s sep = [a; b].
Proof. intros H. unfold Py.split1. rewrite H. reflexivity. Qed.

Lemma replace_from_skip old new n s :
  Py.replace_from old new n s = Py.replace_from old new 0 (Py.drop n s).
Proof.
  revert n. induction s as [|c s IH]; intros [|n]; try reflexivity.
  cbn [Py.replace_from Py.drop]. apply IH.
Qed.

(** [replace] at an occurrence: the occurrence goes, and the scan resumes
    after it. *)
Lemma replace_match c o s new :
  Py.replace (String c o +:+ s) (String c o) new
    = new +:+ Py.replace s (String c o) new.
Proof.
  unfold Py.replace.
  rewrite append_cons. cbn [Py.replace_from]. rewrite <- append_cons.
  rewrite startswith_app. f_equal.
  rewrite replace_from_skip. cbn [String.length].
  replace (S (String.length o) - 1) with (String.length o) by lia.
  rewrite drop_app. reflexivity.
Qed.

(** [replace] away from an occurrence: the character stays. *)
Lemma replace_nomatch c s old new :
  Py.startswith old (String c s) = false ->
  Py.replace (String c s) old new = String c (Py.replace s old new).
Proof.
  intros H. destruct old as [|d o]; [discriminate|].
  unfold Py.replace. cbn [Py.replace_from]. rewrite H. reflexivity.
Qed.

Section Properties.
Context `{C : Collaborators}.

Lemma bind_eq {σ A B} (m : M σ A) (k : A -> M σ B) s :
  bind m k s = match m s with
               | (s', Ret a) => k a s'
               | (s', Raise e) => (s', Raise e)
               end.
Proof. reflexivity. Qed.

Lemma lower_char_t c : Ascii.eqb (Py.lower_char c) "t" = same_letter c "t".
Proof. by_char c. Qed.
Lemma lower_char_r c : Ascii.eqb (Py.lower_char c) "r" = same_letter c "r".
Proof. by_char c. Qed.
Lemma lower_char_u c : Ascii.eqb (Py.lower_char c) "u" = same_letter c "u".
Proof. by_char c. Qed.
Lemma lower_char_e c : Ascii.eqb (Py.lower_char c) "e" = same_letter c "e".
Proof. by_char c. Qed.

(** Lower-casing and comparing with ["true"], as the code does, is the
    case-insensitive comparison the spec describes. *)
Lemma lower_eq_true_iff v :
  String.eqb (Py.lower v) "true" = eq_ignore_case v "true".
Proof.
  destruct v as [|c1 [|c2 [|c3 [|c4 [|c5 v]]]]]; try reflexivity;
    cbn [Py.lower String.eqb eq_ignore_case];
    rewrite ?lower_char_t, ?lower_char_r, ?lower_char_u, ?lower_char_e;
    reflexivity.
Qed.

Lemma kill_switch_on_spec s :
  kill_switch_on s =
    match environ s !! _KILL_SWITCH with
    | Some v => eq_ignore_case v "true"
    | None => false
    end.
Proof.
  unfold kill_switch_on. rewrite lower_eq_true_iff.
  destruct (environ s !! _KILL_SWITCH); reflexivity.
Qed.

(** C3. The kill switch is the environment variable LUMIGO_SWITCH_OFF
    compared with "true" up to case.  When it matches, the wrapper is the
    wrapped function itself: same result, same final state, so nothing was
    installed and no trace context was created.  For any other value, and
    when the variable is unset, the wrapper takes the instrumented path. *)
Theorem kill_switch_case_insensitive func args kwargs s :
  lambda_wrapper func args kwargs s =
    if match environ s !! _KILL_SWITCH with
       | Some v => eq_ignore_case v "true"
       | None => false
       end
    then func args kwargs s
    else traced_call func args kwargs s.
Proof.
  rewrite <- kill_switch_on_spec.
  unfold lambda_wrapper, bind, gets.
  destruct (kill_switch_on s); reflexivity.
Qed.

(** *** The installer *)

Lemma wrap_http_calls_installed s :
  already_wrapped s = true -> wrap_http_calls s = (s, Ret tt).
Proof.
  intros H. unfold wrap_http_calls. unfold_monad. rewrite H. reflexivity.
Qed.


Lemma wrap_http_calls_failure s fs e :
  already_wrapped s = false ->
  install tt (tt, s) = (fs, Raise e) ->
  wrap_http_calls s = (add_log (LogException "wrap http calls" e) (snd fs), Ret tt).
Proof.
  intros Hflag Hbody. unfold wrap_http_calls.
  unfold bind at 1, gets. rewrite Hflag. cbn [negb].
  unfold with_locals, lumigo_safe_execute. rewrite Hbody. reflexivity.
Qed.

Lemma wrap_http_calls_returns s : snd (wrap_http_calls s) = Ret tt.
Proof.
  unfold wrap_http_calls. unfold bind at 1, gets.
  destruct (already_wrapped s); cbn [negb]; [reflexivity|].
  unfold with_locals, lumigo_safe_execute.
  destruct (install tt (tt, s)) as [fs [[]|e]]; reflexivity.
Qed.

Lemma wrap_http_calls_success s :
  already_wrapped s = false ->
  (forall m n s', wrapt_raises m n s' = None) ->
  wrap_http_calls s =
    (set_already_wrapped true
       (add_patch (mkPatch "http.client" "HTTPResponse.read" read_hook)
       (add_patch (mkPatch "http.client" "HTTPConnection.getresponse" response_hook)
       (add_patch (mkPatch "botocore.awsrequest" "AWSRequest.__init__" putheader_hook)
       (add_patch (mkPatch "http.client" "HTTPConnection.send" request_hook)
       (add_log (LogDebug "wrapping the http request") s))))),
     Ret tt).
Proof.
  intros Hflag Hok. unfold wrap_http_calls, install, wrap_function_wrapper.
  unfold_monad. rewrite Hflag. cbn [negb fst snd].
  rewrite !Hok. reflexivity.
Qed.

Lemma repeat_installed n s :
  already_wrapped s = true -> repeat_call n wrap_http_calls s = (s, Ret tt).
Proof.
  intros H. induction n as [|n IH]; [reflexivity|].
  cbn [repeat_call]. rewrite bind_eq, wrap_http_calls_installed by exact H.
  exact IH.
Qed.

(** With every entry point resolvable, any number of invocations patches
    each of the four entry points exactly once. *)
Lemma install_once n s :
  already_wrapped s = false ->
  (forall m k s', wrapt_raises m k s' = None) ->
  patches (fst (repeat_call (S n) wrap_http_calls s)) = patches s ++ four_patches.
Proof.
  intros Hflag Hok. cbn [repeat_call].
  rewrite bind_eq, (wrap_http_calls_success s Hflag Hok).
  rewrite repeat_installed by reflexivity.
  cbn. rewrite <- !app_assoc. reflexivity.
Qed.





(** *** The header injector *)

Lemma putheader_injects func instance args kwargs s root d :
  get_patched_root s = Ret root ->
  kwargs !! "headers" = Some (VDict d) ->
  _putheader_wrapper func instance args kwargs s =
    func args (<["headers" := VDict (<["X-Amzn-Trace-Id" := root]> d)]> kwargs) s.
Proof.
  intros Hroot Hh. unfold _putheader_wrapper, setitem. unfold_monad.
  rewrite Hroot, Hh.
  destruct (func args _ s) as [s' [v|e]]; reflexivity.
Qed.

(** C8, as the code has it.  The injector is not guarded: when [kwargs] has
    no "headers" entry the subscript raises KeyError, when the entry is not
    a dict the item assignment raises TypeError, and in both cases the
    exception leaves the wrapper before the original call is made. *)
Theorem putheader_unguarded func instance args kwargs s root :
  get_patched_root s = Ret root ->
  (kwargs !! "headers" = None ->
   _putheader_wrapper func instance args kwargs s = (s, Raise (KeyError "headers")))
  /\ (forall h, kwargs !! "headers" = Some h -> (forall d, h <> VDict d) ->
      _putheader_wrapper func instance args kwargs s
        = (s, Raise (TypeError "object does not support item assignment"))).
Proof.
  intros Hroot. split.
  - intros Hh. unfold _putheader_wrapper. unfold_monad.
    rewrite Hroot, Hh. reflexivity.
  - intros h Hh Hnd. unfold _putheader_wrapper, setitem. unfold_monad.
    rewrite Hroot, Hh.
    destruct h; try reflexivity. exfalso. eapply Hnd. reflexivity.
Qed.

(** *** The invocation lifecycle *)

Lemma pre_run_locals args l s : fst (fst (pre_run args (l, s))) = l.
Proof.
  unfold pre_run, span_do. unfold_monad.
  destruct (is_enhanced_print s) as [[|]|e]; cbn [fst snd]; try reflexivity;
    destruct (2 <=? length args)%nat; cbn [fst snd];
    repeat match goal with
      | |- context [span_raises ?c ?s'] =>
          destruct (span_raises c s'); cbn [fst snd]; try reflexivity
      end;
    match goal with
    | |- context [wrap_http_calls ?s'] =>
        destruct (wrap_http_calls s') as [s'' [[]|e]]; reflexivity
    end.
Qed.

Lemma pre_run_split args l s :
  pre_run args (l, s) =
    ((l, fst (with_locals l (pre_run args) s)), snd (with_locals l (pre_run args) s)).
Proof.
  unfold with_locals. pose proof (pre_run_locals args l s) as Hl.
  destruct (pre_run args (l, s)) as [[l' s'] r]. cbn in *. subst. reflexivity.
Qed.

Lemma traced_call_bypass func args kwargs s s1 e :
  pre_run_outcome args s = (s1, Raise e) ->
  exn_is_Exception e = true ->
  traced_call func args kwargs s =
    func args kwargs (add_log (LogException "exception in the wrapper" e) s1).
Proof.
  unfold pre_run_outcome. intros Hpre Hexc.
  unfold traced_call. unfold bind at 1, gets, with_locals at 1, try_except.
  rewrite (bind_eq (pre_run args)), pre_run_split, Hpre. cbn [fst snd].
  rewrite Hexc. unfold_monad. cbn [executed negb fst snd].
  destruct (func args kwargs _) as [s' r]. reflexivity.
Qed.

Lemma lambda_wrapper_enabled func args kwargs s :
  kill_switch_on s = false ->
  lambda_wrapper func args kwargs s = traced_call func args kwargs s.
Proof.
  intros Hk. unfold lambda_wrapper, bind, gets. rewrite Hk. reflexivity.
Qed.

Lemma traced_call_returns func args kwargs s s1 s2 v :
  pre_run_outcome args s = (s1, Ret tt) ->
  func args kwargs s1 = (s2, Ret v) ->
  span_raises (span_end v) s2 = None ->
  traced_call func args kwargs s =
    (set_builtins_print (builtins_print s) (add_span_call (span_end v) s2), Ret v).
Proof.
  unfold pre_run_outcome. intros Hpre Hfunc Hend.
  unfold traced_call. unfold bind at 1, gets, with_locals at 1, try_except at 1.
  rewrite (bind_eq (pre_run args)), pre_run_split, Hpre. cbn [fst snd].
  unfold run, span_do. unfold_monad. rewrite Hfunc. cbn [fst snd ret_val set_ret_val].
  rewrite Hend. reflexivity.
Qed.

Lemma traced_call_reraises func args kwargs s s1 s2 e :
  pre_run_outcome args s = (s1, Ret tt) ->
  func args kwargs s1 = (s2, Raise e) ->
  exn_is_Exception e = true ->
  span_raises (add_exception_event e) s2 = None ->
  span_raises (span_end VNone) (add_span_call (add_exception_event e) s2) = None ->
  traced_call func args kwargs s =
    (set_builtins_print (builtins_print s)
       (add_span_call (span_end VNone) (add_span_call (add_exception_event e) s2)),
     Raise e).
Proof.
  unfold pre_run_outcome. intros Hpre Hfunc Hexc Hrec Hend.
  unfold traced_call. unfold bind at 1, gets, with_locals at 1, try_except at 1.
  rewrite (bind_eq (pre_run args)), pre_run_split, Hpre. cbn [fst snd].
  unfold run, span_do. unfold_monad. rewrite Hfunc. cbn [fst snd].
  rewrite Hexc, Hrec. cbn [fst snd ret_val set_executed].
  rewrite Hend. cbn [fst snd executed local_print set_executed negb].
  rewrite Hexc. reflexivity.
Qed.

(** An exception that is not an instance of Exception (SystemExit,
    KeyboardInterrupt) passes through the outer handler. *)
Lemma traced_call_base_exception func args kwargs s s1 e :
  pre_run_outcome args s = (s1, Raise e) ->
  exn_is_Exception e = false ->
  traced_call func args kwargs s = (s1, Raise e).
Proof.
  unfold pre_run_outcome. intros Hpre Hexc.
  unfold traced_call. unfold bind at 1, gets, with_locals at 1, try_except.
  rewrite (bind_eq (pre_run args)), pre_run_split, Hpre. cbn [fst snd].
  rewrite Hexc. reflexivity.
Qed.

(** Once the wrapped function has run, a failure to end the span is what
    the wrapper raises, whatever the function returned. *)
Lemma traced_call_end_failure func args kwargs s s1 s2 v e :
  pre_run_outcome args s = (s1, Ret tt) ->
  func args kwargs s1 = (s2, Ret v) ->
  span_raises (span_end v) s2 = Some e ->
  traced_call func args kwargs s = (s2, Raise e).
Proof.
  unfold pre_run_outcome. intros Hpre Hfunc Hend.
  unfold traced_call. unfold bind at 1, gets, with_locals at 1, try_except at 1.
  rewrite (bind_eq (pre_run args)), pre_run_split, Hpre. cbn [fst snd].
  unfold run, span_do. unfold_monad. rewrite Hfunc. cbn [fst snd ret_val set_ret_val].
  rewrite Hend. cbn [fst snd executed set_ret_val set_executed negb].
  destruct (exn_is_Exception e); reflexivity.
Qed.

(** What can make the steps before the wrapped function raise: the
    enhanced-print check, [create_span] or [start].  The installer cannot:
    it absorbs its own failures. *)
Lemma pre_run_raise_sources args s s1 e :
  pre_run_outcome args s = (s1, Raise e) ->
  is_enhanced_print s = Raise e
  \/ (exists s0, span_raises (create_span args) s0 = Some e)
  \/ (exists s0, span_raises span_start s0 = Some e).
Proof.
  unfold pre_run_outcome, pre_run, span_do. unfold_monad.
  destruct (is_enhanced_print s) as [b|e0]; cbn [fst snd];
    [|intros [= <- <-]; left; reflexivity].
  destruct b; [destruct (2 <=? length args)%nat|]; cbn [fst snd];
    match goal with
    | |- context [span_raises (create_span args) ?s0] =>
        destruct (span_raises (create_span args) s0) as [e1|] eqn:E1; cbn [fst snd];
        [intros [= <- <-]; right; left; eauto|];
        destruct (span_raises span_start (add_span_call (create_span args) s0))
          as [e2|] eqn:E2; cbn [fst snd];
        [intros [= <- <-]; right; right; eauto|];
        pose proof (wrap_http_calls_returns
                      (add_span_call span_start (add_span_call (create_span args) s0)))
          as Hw;
        destruct (wrap_http_calls _) as [s3 r]; cbn [fst snd] in *; subst r;
        discriminate
    end.
Qed.

(** C1. With the kill switch off, when the steps that precede the wrapped
    function (the enhanced-print check, creating the trace context, starting
    the span, installing the interception points) raise an exception [e]
    that is an instance of Exception, the wrapper logs [e] and then is the
    wrapped function itself, called with the original arguments: its
    result, returned or raised, is the wrapper's result. *)
Theorem pre_run_failure_bypassed func args kwargs s s1 e :
  kill_switch_on s = false ->
  pre_run_outcome args s = (s1, Raise e) ->
  exn_is_Exception e = true ->
  lambda_wrapper func args kwargs s =
    func args kwargs (add_log (LogException "exception in the wrapper" e) s1).
Proof.
  intros Hk Hpre Hexc. rewrite (lambda_wrapper_enabled _ _ _ _ Hk).
  exact (traced_call_bypass func args kwargs s s1 e Hpre Hexc).
Qed.

(** C2. With the kill switch off and the preceding steps done, when the
    wrapped function raises an exception [e] (an instance of Exception) and
    the trace context accepts the two calls, the wrapper records
    [add_exception_event e], ends the span, puts back the print function it
    found, and raises [e] itself: same type, message and traceback. *)
Theorem handler_exception_recorded_and_reraised func args kwargs s s1 s2 e :
  kill_switch_on s = false ->
  pre_run_outcome args s = (s1, Ret tt) ->
  func args kwargs s1 = (s2, Raise e) ->
  exn_is_Exception e = true ->
  span_raises (add_exception_event e) s2 = None ->
  span_raises (span_end VNone) (add_span_call (add_exception_event e) s2) = None ->
  lambda_wrapper func args kwargs s =
    (set_builtins_print (builtins_print s)
       (add_span_call (span_end VNone) (add_span_call (add_exception_event e) s2)),
     Raise e).
Proof.
  intros Hk Hpre Hfunc Hexc Hrec Hend. rewrite (lambda_wrapper_enabled _ _ _ _ Hk).
  exact (traced_call_reraises func args kwargs s s1 s2 e Hpre Hfunc Hexc Hrec Hend).
Qed.

(** *** The request wrapper *)

Lemma same_process_refl s : same_process s s.
Proof. repeat split. Qed.

Lemma same_process_trans s1 s2 s3 :
  same_process s1 s2 -> same_process s2 s3 -> same_process s1 s3.
Proof.
  unfold same_process. intros (?&?&?&?&?) (?&?&?&?&?).
  repeat split; congruence.
Qed.

Lemma same_process_log s e : same_process s (add_log e s).
Proof. repeat split. Qed.

Lemma same_process_span s c : same_process s (add_span_call c s).
Proof. repeat split. Qed.

Lemma set_heap_same s : set_heap (heap s) s = s.
Proof. destruct s; reflexivity. Qed.

Lemma set_heap_twice h h' s : set_heap h (set_heap h' s) = set_heap h s.
Proof. reflexivity. Qed.

Lemma safe_get_lookup args i v :
  safe_get args i = v -> v <> VNone -> args !! i = Some v.
Proof.
  unfold safe_get. destruct (args !! i); intros <- Hn; [reflexivity|].
  exfalso. apply Hn. reflexivity.
Qed.

(** An open stream: the block reads at most [MAX_READ_SIZE] bytes from the
    position on and leaves the process state exactly as it found it. *)
Lemma stream_block_open args s ref buf pos :
  safe_get args 0 = VBytesIO ref ->
  heap s !! ref = Some (mkBytesIO buf pos false) ->
  lumigo_safe_execute "parse requested streams" (parse_requested_streams args)
      (initial_locals args, s)
    = ((set_data (VBytes (Py.take MAX_READ_SIZE (Py.drop pos buf))) (initial_locals args), s),
       Ret tt).
Proof.
  intros Hdata Hheap.
  assert (Hargs : args !! 0 = Some (VBytesIO ref))
    by (apply safe_get_lookup; [exact Hdata | discriminate]).
  unfold parse_requested_streams, initial_locals, bio_tell, bio_read, bio_seek.
  unfold_monad. cbn [rl_data]. rewrite Hdata. cbn [fst snd].
  repeat (first [rewrite Hheap | rewrite Hargs | rewrite lookup_insert_eq];
          cbn [bio_closed bio_pos bio_buffer fst snd heap set_heap]).
  rewrite insert_insert_eq, (insert_id _ _ _ Hheap).
  destruct s; reflexivity.
Qed.

Lemma pure_ret {L A} (a : A) : pure_block (ret a : M (L * state) A).
Proof. intros fs. reflexivity. Qed.

Lemma pure_raise {L A} e : pure_block (raise e : M (L * state) A).
Proof. intros fs. reflexivity. Qed.

Lemma pure_local {L A} (f : L -> A) : pure_block (local f).
Proof. intros fs. reflexivity. Qed.

Lemma pure_assign {L} (f : L -> L) : pure_block (assign f).
Proof. intros fs. reflexivity. Qed.

Lemma pure_of_result {L A} (r : result A) : pure_block (of_result r : M (L * state) A).
Proof. intros fs. reflexivity. Qed.

Lemma pure_unpack2 {L} xs : pure_block (unpack2 xs : M (L * state) _).
Proof. intros fs. destruct xs as [|a [|b [|c xs]]]; reflexivity. Qed.

Lemma pure_decode {L} b : pure_block (decode_ascii b : M (L * state) _).
Proof. intros fs. unfold decode_ascii. destruct (Py.is_ascii b); reflexivity. Qed.

Lemma pure_str_replace {L} text old new :
  pure_block (str_replace text old new : M (L * state) _).
Proof. intros fs. destruct old; reflexivity. Qed.

Lemma pure_http_vsn_str {L} instance :
  pure_block (http_vsn_str instance : M (L * state) _).
Proof. intros fs. unfold http_vsn_str. destruct (conn_http_vsn_str instance); reflexivity. Qed.

Lemma pure_bind {L A B} (m : M (L * state) A) (k : A -> M (L * state) B) :
  pure_block m -> (forall a, pure_block (k a)) -> pure_block (bind m k).
Proof.
  intros Hm Hk fs. unfold bind. specialize (Hm fs).
  destruct (m fs) as [fs1 [a|e]]; cbn [fst snd] in *; [|exact Hm].
  rewrite Hk. exact Hm.
Qed.

#[local] Hint Resolve pure_ret pure_raise pure_local pure_assign pure_of_result
  pure_unpack2 pure_decode pure_str_replace pure_http_vsn_str pure_bind : pure.
#[local] Hint Extern 3 (pure_block (match ?x with _ => _ end)) => destruct x : pure.

Lemma parse_request_pure instance : pure_block (parse_request instance).
Proof. unfold parse_request. auto 80 with pure. Qed.

(** A guarded block returns; a guarded pure block leaves, at most, a log
    entry. *)
Lemma guarded_returns {L} part (body : M (L * state) unit) fs :
  snd (lumigo_safe_execute part body fs) = Ret tt.
Proof.
  unfold lumigo_safe_execute. destruct (body fs) as [fs' [[]|e]]; reflexivity.
Qed.

Lemma guarded_pure_frame {L} part (body : M (L * state) unit) fs :
  pure_block body ->
  same_process (snd fs) (snd (fst (lumigo_safe_execute part body fs))).
Proof.
  intros Hp. unfold lumigo_safe_execute. specialize (Hp fs).
  destruct (body fs) as [fs' [[]|e]]; cbn [fst snd] in *; rewrite Hp.
  - apply same_process_refl.
  - apply same_process_log.
Qed.

Lemma stream_block_frame args s :
  same_process s
    (snd (fst (lumigo_safe_execute "parse requested streams"
                 (parse_requested_streams args) (initial_locals args, s)))).
Proof.
  destruct (safe_get args 0) as [| | |ref| |] eqn:Hdata;
    try (unfold parse_requested_streams, initial_locals; unfold_monad;
         cbn [rl_data]; rewrite Hdata; apply same_process_refl).
  destruct (heap s !! ref) as [[buf pos [|]]|] eqn:Hheap.
  - unfold parse_requested_streams, initial_locals, bio_tell; unfold_monad.
    cbn [rl_data]. rewrite Hdata. cbn [fst snd]. rewrite Hheap.
    apply same_process_log.
  - rewrite (stream_block_open args s ref buf pos Hdata Hheap).
    apply same_process_refl.
  - unfold parse_requested_streams, initial_locals, bio_tell; unfold_monad.
    cbn [rl_data]. rewrite Hdata. cbn [fst snd]. rewrite Hheap.
    apply same_process_log.
Qed.

Lemma add_request_frame fs :
  same_process (snd fs)
    (snd (fst (lumigo_safe_execute "add request event" (add_request tt) fs))).
Proof.
  unfold add_request, span_do. unfold_monad.
  destruct (headers_truthy _);
    match goal with
    | |- context [span_raises ?c ?s] => destruct (span_raises c s)
    end; cbn [fst snd];
    first [ apply same_process_log | apply same_process_span ].
Qed.

Lemma guarded_eq {L} part (body : M (L * state) unit) fs :
  lumigo_safe_execute part body fs = (fst (lumigo_safe_execute part body fs), Ret tt).
Proof.
  pose proof (guarded_returns part body fs) as H.
  destruct (lumigo_safe_execute part body fs) as [fs' r]. cbn [fst snd] in *.
  subst r. reflexivity.
Qed.

(** The prologue is its three guarded blocks in a row, with the assignment
    of line 37 after the first. *)
Lemma prologue_eq instance args fs :
  request_prologue instance args fs =
    let fs1 := fst (lumigo_safe_execute "parse requested streams"
                      (parse_requested_streams args) fs) in
    let fs2 := (mkLocals (rl_data (fst fs1)) (conn_host instance) (conn_method instance)
                         HNone VNone None, snd fs1) in
    let fs3 := fst (lumigo_safe_execute "parse request" (parse_request instance) fs2) in
    lumigo_safe_execute "add request event" (add_request tt) fs3.
Proof.
  unfold request_prologue.
  rewrite bind_eq, guarded_eq.
  rewrite bind_eq. unfold assign at 1. cbn [fst snd].
  rewrite bind_eq, guarded_eq. reflexivity.
Qed.

Lemma prologue_returns instance args fs :
  snd (request_prologue instance args fs) = Ret tt.
Proof. rewrite prologue_eq. cbv zeta. apply guarded_returns. Qed.

Lemma prologue_frame instance args s :
  same_process s (state_at_send instance args s).
Proof.
  unfold state_at_send. rewrite prologue_eq. cbv zeta.
  eapply same_process_trans; [| apply add_request_frame].
  eapply same_process_trans;
    [| apply (guarded_pure_frame "parse request"), parse_request_pure ].
  cbn [snd]. apply stream_block_frame.
Qed.

(** Whatever the prologue met, the wrapper then makes the real call with
    the arguments it was given; what the call returns or raises is what the
    wrapper returns or raises. *)
Lemma request_wrapper_sends func instance args kwargs s :
  _request_wrapper func instance args kwargs s =
    match func args kwargs (state_at_send instance args s) with
    | (s2, Ret v) => (mark_end_time s2, Ret v)
    | (s2, Raise e) => (s2, Raise e)
    end.
Proof.
  unfold _request_wrapper, state_at_send, with_locals.
  rewrite bind_eq.
  pose proof (prologue_returns instance args (initial_locals args, s)) as Hr.
  destruct (request_prologue instance args (initial_locals args, s)) as [fs r].
  cbn [snd fst] in *. subst r.
  unfold request_epilogue, mark_end_time, span_do. unfold_monad.
  destruct (func args kwargs (snd fs)) as [s2 [v|e]]; cbn [fst snd]; [|reflexivity].
  destruct (span_raises update_event_end_time s2); reflexivity.
Qed.

Lemma bytes_block_skipped args s d :
  safe_get args 0 = VBytes d ->
  lumigo_safe_execute "parse requested streams" (parse_requested_streams args)
      (initial_locals args, s)
    = ((initial_locals args, s), Ret tt).
Proof.
  intros Hdata. unfold parse_requested_streams, initial_locals. unfold_monad.
  cbn [rl_data]. rewrite Hdata. reflexivity.
Qed.

Lemma add_request_locals fs :
  fst (fst (lumigo_safe_execute "add request event" (add_request tt) fs)) = fst fs.
Proof.
  unfold add_request, span_do. unfold_monad.
  destruct (headers_truthy _);
    match goal with
    | |- context [span_raises ?c ?s] => destruct (span_raises c s)
    end; reflexivity.
Qed.

Lemma parse_block_unparsed instance l s d :
  rl_data l = VBytes d ->
  Py.contains _BODY_HEADER_SPLITTER d = false ->
  lumigo_safe_execute "parse request" (parse_request instance) (l, s) = ((l, s), Ret tt).
Proof.
  intros Hdata Hno. unfold parse_request. unfold_monad.
  rewrite Hdata, Hno. reflexivity.
Qed.

Lemma parse_block_parsed instance l s d hb body line rest m mth vsn :
  rl_data l = VBytes d ->
  Py.partition1 _BODY_HEADER_SPLITTER d = Some (hb, body) ->
  Py.partition1 _FLAGS_HEADER_SPLITTER hb = Some (line, rest) ->
  parse_headers rest = Ret m ->
  Py.is_ascii line = true ->
  rl_method l = Some mth ->
  conn_http_vsn_str instance = Some vsn ->
  lumigo_safe_execute "parse request" (parse_request instance) (l, s)
    = ((mkLocals (VBytes d)
                 (or_else (rl_host l) (msg_get m "Host"))
                 (Some mth)
                 (HParsed m)
                 (VBytes body)
                 (Some (format_opt (rl_host l)
                        +:+ Py.strip (Py.replace (Py.replace line mth "") vsn ""))),
        s),
       Ret tt).
Proof.
  intros Hdata Hcut1 Hcut2 Hparse Hascii Hmth Hvsn.
  unfold parse_request, unpack2, decode_ascii, str_replace, http_vsn_str. unfold_monad.
  rewrite Hdata, (partition1_contains _ _ _ _ Hcut1), (split1_partition _ _ _ _ Hcut1).
  cbn [fst snd]. unfold_monad.
  rewrite (partition1_contains _ _ _ _ Hcut2), (split1_partition _ _ _ _ Hcut2).
  cbn [fst snd]. unfold_monad.
  rewrite Hparse, Hascii. cbn [fst snd rl_method set_headers set_body].
  rewrite Hmth, Hvsn. cbn [fst snd rl_data rl_host rl_method set_headers set_body
                           set_uri set_host rl_headers rl_body rl_uri].
  unfold set_host, set_uri, set_headers, set_body.
  cbn [rl_data rl_host rl_method rl_headers rl_body rl_uri].
  rewrite Hdata, Hmth. reflexivity.
Qed.

Lemma add_block_request l s :
  headers_truthy (rl_headers l) = true ->
  span_raises (add_request_event
                 (mkHttpRequest (rl_host l) (rl_method l) (rl_uri l)
                                (rl_headers l) (rl_body l))) s = None ->
  lumigo_safe_execute "add request event" (add_request tt) (l, s)
    = ((l, add_span_call
             (add_request_event
                (mkHttpRequest (rl_host l) (rl_method l) (rl_uri l)
                               (rl_headers l) (rl_body l))) s),
       Ret tt).
Proof.
  intros Ht Hok. unfold add_request, span_do. unfold_monad.
  rewrite Ht. cbn [fst snd]. rewrite Hok. reflexivity.
Qed.

Lemma add_block_unparsed l s :
  headers_truthy (rl_headers l) = false ->
  span_raises (add_unparsed_request
                 (mkHttpRequest (rl_host l) (rl_method l) (rl_uri l)
                                HNone (rl_data l))) s = None ->
  lumigo_safe_execute "add request event" (add_request tt) (l, s)
    = ((l, add_span_call
             (add_unparsed_request
                (mkHttpRequest (rl_host l) (rl_method l) (rl_uri l)
                               HNone (rl_data l))) s),
       Ret tt).
Proof.
  intros Ht Hok. unfold add_request, span_do. unfold_monad.
  rewrite Ht. cbn [fst snd]. rewrite Hok. reflexivity.
Qed.

Lemma locals_at_send_parsed instance args s d hb body line rest m mth vsn :
  safe_get args 0 = VBytes d ->
  Py.partition1 _BODY_HEADER_SPLITTER d = Some (hb, body) ->
  Py.partition1 _FLAGS_HEADER_SPLITTER hb = Some (line, rest) ->
  parse_headers rest = Ret m ->
  Py.is_ascii line = true ->
  conn_method instance = Some mth ->
  conn_http_vsn_str instance = Some vsn ->
  locals_at_send instance args s
    = mkLocals (VBytes d)
               (or_else (conn_host instance) (msg_get m "Host"))
               (Some mth)
               (HParsed m)
               (VBytes body)
               (Some (format_opt (conn_host instance)
                      +:+ Py.strip (Py.replace (Py.replace line mth "") vsn ""))).
Proof.
  intros Hdata Hcut1 Hcut2 Hparse Hascii Hmth Hvsn.
  unfold locals_at_send. rewrite prologue_eq. cbv zeta.
  rewrite add_request_locals, (bytes_block_skipped _ _ _ Hdata). cbn [fst snd].
  erewrite parse_block_parsed; try eassumption; reflexivity.
Qed.

Lemma state_at_send_parsed instance args s d hb body line rest m mth vsn :
  safe_get args 0 = VBytes d ->
  Py.partition1 _BODY_HEADER_SPLITTER d = Some (hb, body) ->
  Py.partition1 _FLAGS_HEADER_SPLITTER hb = Some (line, rest) ->
  parse_headers rest = Ret m ->
  Py.is_ascii line = true ->
  conn_method instance = Some mth ->
  conn_http_vsn_str instance = Some vsn ->
  m <> [] ->
  forall r,
  r = mkHttpRequest
        (or_else (conn_host instance) (msg_get m "Host"))
        (Some mth)
        (Some (format_opt (conn_host instance)
               +:+ Py.strip (Py.replace (Py.replace line mth "") vsn "")))
        (HParsed m)
        (VBytes body) ->
  span_raises (add_request_event r) s = None ->
  state_at_send instance args s = add_span_call (add_request_event r) s.
Proof.
  intros Hdata Hcut1 Hcut2 Hparse Hascii Hmth Hvsn Hm r -> Hok.
  unfold state_at_send. rewrite prologue_eq. cbv zeta.
  rewrite (bytes_block_skipped _ _ _ Hdata). cbn [fst snd].
  erewrite parse_block_parsed; try eassumption; try reflexivity.
  cbn [fst snd]. rewrite add_block_request; [reflexivity| |exact Hok].
  cbn [rl_headers headers_truthy]. destruct m; [congruence | reflexivity].
Qed.

Lemma state_at_send_unparsed instance args s d :
  safe_get args 0 = VBytes d ->
  Py.contains _BODY_HEADER_SPLITTER d = false ->
  forall r,
  r = mkHttpRequest (conn_host instance) (conn_method instance) None HNone (VBytes d) ->
  span_raises (add_unparsed_request r) s = None ->
  state_at_send instance args s = add_span_call (add_unparsed_request r) s.
Proof.
  intros Hdata Hno r -> Hok.
  unfold state_at_send. rewrite prologue_eq. cbv zeta.
  rewrite (bytes_block_skipped _ _ _ Hdata). cbn [fst snd].
  unfold initial_locals. cbn [rl_data]. rewrite Hdata.
  erewrite parse_block_unparsed; [|reflexivity|exact Hno]. cbn [fst snd].
  rewrite add_block_unparsed; [reflexivity|reflexivity|exact Hok].
Qed.


Lemma take_length n s : String.length (Py.take n s) <= n.
Proof.
  revert s. induction n as [|n IH]; intros [|c s]; cbn; try lia.
  specialize (IH s). lia.
Qed.


(** C5. A byte buffer without the double CRLF is recorded through
    [add_unparsed_request]: host and method are the connection's, there is
    no URI and no headers, and the body is the buffer itself.  And for every
    input, whatever the prologue met, the wrapper then makes the real call
    with the arguments it received, in a process state that differs from
    the initial one in the log and the trace context only. *)
Theorem unparsed_request_recorded_and_sent func instance args kwargs s :
  (forall d,
     safe_get args 0 = VBytes d ->
     Py.contains _BODY_HEADER_SPLITTER d = false ->
     span_raises
       (add_unparsed_request
          (mkHttpRequest (conn_host instance) (conn_method instance) None HNone (VBytes d)))
       s = None ->
     state_at_send instance args s
       = add_span_call
           (add_unparsed_request
              (mkHttpRequest (conn_host instance) (conn_method instance) None HNone
                             (VBytes d)))
           s)
  /\ _request_wrapper func instance args kwargs s
     = match func args kwargs (state_at_send instance args s) with
       | (s2, Ret v) => (mark_end_time s2, Ret v)
       | (s2, Raise e) => (s2, Raise e)
       end
  /\ same_process s (state_at_send instance args s).
Proof.
  split; [|split].
  - intros d Hdata Hno Hok.
    exact (state_at_send_unparsed instance args s d Hdata Hno _ eq_refl Hok).
  - apply request_wrapper_sends.
  - apply prologue_frame.
Qed.

(** C6. When the outbound data is a BytesIO stream, the stream is, at the
    moment of the real call, exactly as it was before the interception:
    same buffer, same position.  This holds on every path (closed stream,
    parse failure, failure of the trace context).  On an open stream the
    interception examines the bytes from the position on, at most
    [MAX_READ_SIZE] of them. *)
Theorem stream_position_restored func instance args kwargs s ref bio :
  safe_get args 0 = VBytesIO ref ->
  heap s !! ref = Some bio ->
  heap (state_at_send instance args s) !! ref = Some bio
  /\ _request_wrapper func instance args kwargs s
     = match func args kwargs (state_at_send instance args s) with
       | (s2, Ret v) => (mark_end_time s2, Ret v)
       | (s2, Raise e) => (s2, Raise e)
       end
  /\ (bio_closed bio = false ->
      let chunk := Py.take MAX_READ_SIZE (Py.drop (bio_pos bio) (bio_buffer bio)) in
      lumigo_safe_execute "parse requested streams" (parse_requested_streams args)
          (initial_locals args, s)
        = ((set_data (VBytes chunk) (initial_locals args), s), Ret tt)
      /\ String.length chunk <= MAX_READ_SIZE).
Proof.
  intros Hdata Hheap. split; [|split].
  - destruct (prologue_frame instance args s) as (_ & _ & _ & _ & ->). exact Hheap.
  - apply request_wrapper_sends.
  - intros Hopen chunk. split; [|apply take_length].
    destruct bio as [buf pos closed]. cbn in Hopen. subst closed.
    exact (stream_block_open args s ref buf pos Hdata Hheap).
Qed.

Lemma append_length a b :
  String.length (a +:+ b) = String.length a + String.length b.
Proof.
  induction a as [|c a IH]; [reflexivity|].
  rewrite append_cons. cbn [String.length]. rewrite IH. reflexivity.
Qed.

Lemma append_inv_head a s1 s2 : a +:+ s1 = a +:+ s2 -> s1 = s2.
Proof.
  induction a as [|c a IH]; intros H; [exact H|].
  rewrite !append_cons in H. injection H as H. exact (IH H).
Qed.

Lemma replace_nil old new : old <> "" -> Py.replace "" old new = "".
Proof. intros H. destruct old; [congruence | reflexivity]. Qed.

(** The code's [replace(token, "")] deletes the occurrences of the token
    in the sense of the spec: the skip counter of the model and the
    left-to-right reading agree. *)
Lemma replace_deletes_occurrences token s :
  token <> "" -> deletes_occurrences token s (Py.replace s token "").
Proof.
  intros Hne.
  assert (H : forall n s, String.length s <= n ->
                deletes_occurrences token s (Py.replace s token "")).
  { clear s. induction n as [|n IH]; intros s Hlen.
    - destruct s; [|cbn in Hlen; lia].
      rewrite replace_nil by exact Hne. constructor.
    - destruct s as [|c s].
      + rewrite replace_nil by exact Hne. constructor.
      + destruct (Py.startswith token (String c s)) eqn:E.
        * pose proof (startswith_drop _ _ E) as Hs.
          set (s2 := Py.drop (String.length token) (String c s)) in *.
          assert (Hl2 : String.length s2 <= n).
          { apply (f_equal String.length) in Hs. rewrite append_length in Hs.
            cbn [String.length] in Hs, Hlen.
            destruct token as [|t0 token']; [congruence|].
            cbn [String.length] in Hs. lia. }
          rewrite Hs. destruct token as [|t0 token']; [congruence|].
          rewrite replace_match, append_nil.
          apply deletes_here. apply IH. exact Hl2.
        * rewrite (replace_nomatch _ _ _ _ E).
          apply deletes_keep; [exact E|]. apply IH. cbn in Hlen. lia. }
  apply (H (String.length s)). lia.
Qed.

(** The reading determines the result. *)
Lemma deletes_occurrences_functional token s r1 r2 :
  token <> "" ->
  deletes_occurrences token s r1 ->
  deletes_occurrences token s r2 ->
  r1 = r2.
Proof.
  intros Hne H1. revert r2.
  induction H1 as [|s1 r1 H1 IH|c s1 r1 Hno H1 IH]; intros r2 H2.
  - remember "" as x eqn:Hx. destruct H2 as [|s2 r2 H2|c s2 r2 Hno2 H2].
    + reflexivity.
    + destruct token; [congruence | discriminate].
    + discriminate.
  - remember (token +:+ s1) as x eqn:Hx.
    destruct H2 as [|s2 r2 H2|c s2 r2 Hno2 H2].
    + destruct token; [congruence | discriminate].
    + apply append_inv_head in Hx. subst s2. apply IH. exact H2.
    + rewrite Hx, startswith_app in Hno2. discriminate.
  - remember (String c s1) as x eqn:Hx.
    destruct H2 as [|s2 r2 H2|c2 s2 r2 Hno2 H2].
    + discriminate.
    + first [ rewrite startswith_app in Hno
            | rewrite <- Hx, startswith_app in Hno ]. discriminate.
    + injection Hx as <- <-. f_equal. apply IH. exact H2.
Qed.

(** C10. The method is deleted wherever it occurs in the request line, not
    only at its start, and so is the protocol version: for a request line
    [mth +:+ tail], what the code derives is what is left of [tail] once the
    occurrences of the method, then those of the version, have been
    deleted (reading left to right; the letters left over may spell the
    token again, /GGETET leaves /GET), stripped.  The URI recorded through
    [add_request_event] is the host followed by that path.  The real call
    still receives the arguments unchanged. *)
Theorem method_removed_everywhere func instance args kwargs s d hb body tail rest m mth vsn :
  safe_get args 0 = VBytes d ->
  Py.partition1 _BODY_HEADER_SPLITTER d = Some (hb, body) ->
  Py.partition1 _FLAGS_HEADER_SPLITTER hb = Some (mth +:+ tail, rest) ->
  parse_headers rest = Ret m ->
  Py.is_ascii (mth +:+ tail) = true ->
  mth <> "" ->
  vsn <> "" ->
  conn_method instance = Some mth ->
  conn_http_vsn_str instance = Some vsn ->
  let no_method := Py.replace tail mth "" in
  let no_version := Py.replace no_method vsn "" in
  let r := mkHttpRequest
             (or_else (conn_host instance) (msg_get m "Host"))
             (Some mth)
             (Some (format_opt (conn_host instance) +:+ Py.strip no_version))
             (HParsed m)
             (VBytes body) in
  deletes_occurrences mth tail no_method
  /\ deletes_occurrences vsn no_method no_version
  /\ rl_uri (locals_at_send instance args s) = req_uri r
  /\ (m <> [] ->
      span_raises (add_request_event r) s = None ->
      state_at_send instance args s = add_span_call (add_request_event r) s)
  /\ _request_wrapper func instance args kwargs s
     = match func args kwargs (state_at_send instance args s) with
       | (s2, Ret v) => (mark_end_time s2, Ret v)
       | (s2, Raise e) => (s2, Raise e)
       end
  /\ same_process s (state_at_send instance args s).
Proof.
  intros Hdata Hcut1 Hcut2 Hparse Hascii Hne Hvne Hmth Hvsn no_method no_version r.
  assert (Hline : Py.replace (mth +:+ tail) mth "" = no_method).
  { subst no_method. destruct mth as [|c o]; [congruence|].
    rewrite replace_match. reflexivity. }
  split; [exact (replace_deletes_occurrences mth tail Hne)|].
  split; [exact (replace_deletes_occurrences vsn no_method Hvne)|].
  split; [|split; [|split]].
  - rewrite (locals_at_send_parsed instance args s d hb body (mth +:+ tail) rest m mth vsn
               Hdata Hcut1 Hcut2 Hparse Hascii Hmth Hvsn).
    cbn [rl_uri]. rewrite Hline. reflexivity.
  - intros Hm Hok.
    apply (state_at_send_parsed instance args s d hb body (mth +:+ tail) rest m mth vsn
             Hdata Hcut1 Hcut2 Hparse Hascii Hmth Hvsn Hm r); [|exact Hok].
    subst r. rewrite Hline. reflexivity.
  - apply request_wrapper_sends.
  - apply prologue_frame.
Qed.

(** *** The Chalice adapter *)

Lemma getattr_eq self item s s1 oa aws :
  py_getattribute (app self) item s = (s1, Ret oa) ->
  is_aws_environment s1 = Ret aws ->
  __getattr__ self item s =
    (s1, Ret (if aws && bool_decide (item ∈ DECORATORS_OF_NEW_HANDLERS)
              then GetDecorator self oa else Forwarded oa)).
Proof.
  intros Hget Haws. unfold __getattr__. unfold_monad.
  rewrite Hget, Haws.
  destruct (aws && bool_decide (item ∈ DECORATORS_OF_NEW_HANDLERS)); reflexivity.
Qed.

Lemma wrapper2_eq w func s s1 wrapped s2 :
  py_call (w2_chalice_actual_decorator w) [func] ∅ s = (s1, Ret wrapped) ->
  config (lumigo_conf_args (w2_self w)) (lumigo_conf_kwargs (w2_self w)) s1 = (s2, Ret tt) ->
  wrapper2 w func s =
    (s2, Ret (mkLumigoChalice (lumigo_conf_args (w2_self w))
                              (lumigo_conf_kwargs (w2_self w)) wrapped)).
Proof.
  intros Hcall Hconf. unfold wrapper2, LumigoChalice_init, lumigo_tracer.
  unfold_monad. rewrite Hcall, Hconf. reflexivity.
Qed.

(** C9, as the code has it.  In an AWS environment, an attribute on the
    allowlist comes back as the closure [get_decorator]; called, it calls
    the application's own attribute and yields [wrapper2], which applies the
    framework's decorator to the handler and wraps the result in a new
    adapter with the same configuration.  Outside an AWS environment, and
    for a name that is not on the allowlist, the attribute of the wrapped
    application comes back as it is. *)
Theorem getattr_rewraps_in_aws self item s s1 original_attr :
  py_getattribute (app self) item s = (s1, Ret original_attr) ->
  (is_aws_environment s1 = Ret true ->
   item ∈ DECORATORS_OF_NEW_HANDLERS ->
   __getattr__ self item s = (s1, Ret (GetDecorator self original_attr)))
  /\ (forall args kwargs sa sb decorator,
        py_call original_attr args kwargs sa = (sb, Ret decorator) ->
        get_decorator self original_attr args kwargs sa
          = (sb, Ret (mkWrapper2 self decorator))
        /\ forall func sc sd wrapped se,
             py_call decorator [func] ∅ sc = (sd, Ret wrapped) ->
             config (lumigo_conf_args self) (lumigo_conf_kwargs self) sd = (se, Ret tt) ->
             wrapper2 (mkWrapper2 self decorator) func sc
               = (se, Ret (mkLumigoChalice (lumigo_conf_args self)
                                           (lumigo_conf_kwargs self) wrapped)))
  /\ (is_aws_environment s1 = Ret false ->
      __getattr__ self item s = (s1, Ret (Forwarded original_attr)))
  /\ (is_aws_environment s1 = Ret true ->
      item ∉ DECORATORS_OF_NEW_HANDLERS ->
      __getattr__ self item s = (s1, Ret (Forwarded original_attr))).
Proof.
  intros Hget. repeat split.
  - intros Haws Hin. rewrite (getattr_eq self item s s1 original_attr true Hget Haws).
    rewrite bool_decide_eq_true_2 by exact Hin. reflexivity.
  - unfold get_decorator. unfold_monad. rewrite H. reflexivity.
  - intros func sc sd wrapped se Hcall Hconf.
    exact (wrapper2_eq (mkWrapper2 self decorator) func sc sd wrapped se Hcall Hconf).
  - intros Haws. rewrite (getattr_eq self item s s1 original_attr false Hget Haws).
    reflexivity.
  - intros Haws Hout. rewrite (getattr_eq self item s s1 original_attr true Hget Haws).
    rewrite bool_decide_eq_false_2 by exact Hout. reflexivity.
Qed.

End Properties.

(** ** The properties at concrete inputs *)

(** C1 at an input: [create_span] raises, the handler still runs and its
    result comes back; the failure is in the log and nothing was traced. *)
Lemma pre_run_failure_bypassed_witness :
  lambda_wrapper (C := collaborators create_span_fails never3)
      echo_handler lambda_args ∅ empty_state
    = (add_log (LogException "exception in the wrapper" tracing_broke) empty_state,
       Ret (VStr "event")).
Proof.
  exact (pre_run_failure_bypassed (C := collaborators create_span_fails never3)
           echo_handler lambda_args ∅ empty_state empty_state tracing_broke
           eq_refl eq_refl eq_refl).
Defined.

(** C2 at an input: the handler raises "boom". *)
Lemma handler_exception_witness :
  snd (lambda_wrapper (C := well_behaved) failing_handler lambda_args ∅ empty_state)
    = Raise boom
  /\ span (fst (lambda_wrapper (C := well_behaved) failing_handler lambda_args ∅ empty_state))
     = [create_span lambda_args; span_start; add_exception_event boom; span_end VNone].
Proof.
  rewrite (handler_exception_recorded_and_reraised (C := well_behaved)
             failing_handler lambda_args ∅ empty_state
             (fst (pre_run_outcome (C := well_behaved) lambda_args empty_state))
             (fst (pre_run_outcome (C := well_behaved) lambda_args empty_state))
             boom eq_refl eq_refl eq_refl eq_refl eq_refl eq_refl).
  split; reflexivity.
Defined.

(** C3 at the three spellings of the spec: the handler's result, and a
    process state in which nothing was installed or traced. *)
Example kill_switch_spellings :
  Forall
    (fun v =>
       lambda_wrapper (C := well_behaved) echo_handler lambda_args ∅
           (with_environ _KILL_SWITCH v empty_state)
         = (with_environ _KILL_SWITCH v empty_state, Ret (VStr "event")))
    ["TRUE"; "true"; "True"].
Proof. repeat constructor. Qed.

(** Values that leave the instrumentation on, the unset variable among
    them. *)
Example kill_switch_other_values :
  forall v, v ∈ ["1"; "yes"; "truee"] ->
  kill_switch_on (with_environ _KILL_SWITCH v empty_state) = false
  /\ kill_switch_on empty_state = false.
Proof.
  intros v Hv.
  repeat (apply elem_of_cons in Hv as [-> | Hv]; [split; reflexivity|]).
  apply elem_of_nil in Hv. destruct Hv.
Qed.


(** C5 at a continuation write. *)
Lemma unparsed_request_witness :
  state_at_send (C := well_behaved) example_connection [VBytes continuation_write] empty_state
    = add_span_call
        (add_unparsed_request
           (mkHttpRequest (Some "example.com") (Some "GET") None HNone
                          (VBytes continuation_write)))
        empty_state.
Proof.
  exact (proj1 (unparsed_request_recorded_and_sent (C := well_behaved)
                  echo_handler example_connection [VBytes continuation_write] ∅ empty_state)
           continuation_write eq_refl eq_refl eq_refl).
Defined.

(** C6 at a stream that was read up to position 5. *)
Lemma stream_position_witness :
  heap (state_at_send (C := well_behaved) example_connection [VBytesIO 3] stream_state) !! 3
    = Some (mkBytesIO example_request 5 false).
Proof.
  exact (proj1 (stream_position_restored (C := well_behaved)
                  echo_handler example_connection [VBytesIO 3] ∅ stream_state 3
                  (mkBytesIO example_request 5 false) eq_refl eq_refl)).
Defined.



(** Without botocore every invocation patches [HTTPConnection.send] again:
    the flag is only set once all four patches are in. *)
Example partial_install_repeats :
  patches (fst (repeat_call 2 (wrap_http_calls (C := collaborators never no_botocore))
                  empty_state))
    = [ mkPatch "http.client" "HTTPConnection.send" request_hook;
        mkPatch "http.client" "HTTPConnection.send" request_hook ].
Proof. reflexivity. Qed.

(** C8 at a request built without a [headers] keyword. *)
Lemma putheader_unguarded_witness :
  _putheader_wrapper (C := well_behaved) echo_handler VNone [VStr "GET"] ∅ empty_state
    = (empty_state, Raise (KeyError "headers")).
Proof.
  exact (proj1 (putheader_unguarded (C := well_behaved) echo_handler VNone [VStr "GET"] ∅
                  empty_state "Root=1-5e1b4151-5ac6c58f" eq_refl) eq_refl).
Defined.

(** C9 as the spec states it fails outside AWS: [schedule] is on the
    allowlist, and the adapter hands back the application's own attribute,
    not a wrapping function. *)
Lemma getattr_outside_aws_forwards :
  "schedule" ∈ DECORATORS_OF_NEW_HANDLERS
  /\ __getattr__ (C := well_behaved) adapter "schedule" empty_state
     = (empty_state, Ret (Forwarded (VObject 2 {[ "__name__" := "schedule" ]})))
  /\ forall original_attr,
       snd (__getattr__ (C := well_behaved) adapter "schedule" empty_state)
         <> Ret (GetDecorator adapter original_attr).
Proof.
  split; [|split].
  - compute_done.
  - reflexivity.
  - intros oa. discriminate.
Qed.

(** C9 as the code has it, in an AWS environment. *)
Lemma getattr_rewraps_witness :
  __getattr__ (C := well_behaved) adapter "schedule"
      (with_environ "LAMBDA_RUNTIME_DIR" "/var/runtime" empty_state)
    = (with_environ "LAMBDA_RUNTIME_DIR" "/var/runtime" empty_state,
       Ret (GetDecorator adapter (VObject 2 {[ "__name__" := "schedule" ]}))).
Proof.
  refine (proj1 (getattr_rewraps_in_aws (C := well_behaved) adapter "schedule"
                   (with_environ "LAMBDA_RUNTIME_DIR" "/var/runtime" empty_state)
                   _ _ eq_refl) eq_refl _).
  compute_done.
Defined.

(** C10 at the path /GETters: the URI that reaches the trace context has
    lost the method's letters inside the path. *)
Lemma method_removed_witness :
  state_at_send (C := well_behaved) example_connection [VBytes getters_request] empty_state
    = add_span_call
        (add_request_event
           (mkHttpRequest (Some "example.com") (Some "GET") (Some "example.com/ters")
                          (HParsed [("Host", "example.com")]) (VBytes "")))
        empty_state.
Proof.
  refine (proj1 (proj2 (proj2 (proj2
    (method_removed_everywhere (C := well_behaved) echo_handler
       example_connection [VBytes getters_request] ∅ empty_state
       getters_request _ "" " /GETters HTTP/1.1" "Host: example.com"
       [("Host", "example.com")] "GET" "HTTP/1.1"
       eq_refl eq_refl eq_refl eq_refl eq_refl _ _ eq_refl eq_refl)))) _ eq_refl);
    discriminate.
Defined.

(** ** Further properties *)

Section MoreProperties.
Context `{C : Collaborators} `{R : ResponseTrace}.

(** *** The response hooks *)

Lemma response_wrapper_eq func instance args kwargs s :
  _response_wrapper func instance args kwargs s =
    match func args kwargs s with
    | (s1, Ret v) =>
        (snd (fst (lumigo_safe_execute "parse response"
                     (parse_response instance v) (tt, s1))), Ret v)
    | (s1, Raise e) => (s1, Raise e)
    end.
Proof.
  unfold _response_wrapper, with_locals. rewrite bind_eq. unfold lift at 1.
  cbn [fst snd]. destruct (func args kwargs s) as [s1 [v|e]]; [|reflexivity].
  rewrite bind_eq, guarded_eq. reflexivity.
Qed.

Lemma read_wrapper_eq func instance args kwargs s :
  _read_wrapper func instance args kwargs s =
    match func args kwargs s with
    | (s1, Ret v) =>
        (if truthy v
         then snd (fst (lumigo_safe_execute "parse response.read"
                          (parse_response_read instance v) (tt, s1)))
         else s1, Ret v)
    | (s1, Raise e) => (s1, Raise e)
    end.
Proof.
  unfold _read_wrapper, with_locals. rewrite bind_eq. unfold lift at 1.
  cbn [fst snd]. destruct (func args kwargs s) as [s1 [v|e]]; [|reflexivity].
  rewrite bind_eq. destruct (truthy v); [rewrite guarded_eq|]; reflexivity.
Qed.

(** X1. [_response_wrapper] never changes the outcome of the call it wraps:
    it returns what the call returns and raises what the call raises,
    whatever the response object and the trace context do; when the call
    raises, the process state is the one the call left. *)
Theorem response_wrapper_transparent func instance args kwargs s :
  snd (_response_wrapper func instance args kwargs s) = snd (func args kwargs s)
  /\ (forall s1 e,
        func args kwargs s = (s1, Raise e) ->
        _response_wrapper func instance args kwargs s = (s1, Raise e)).
Proof.
  rewrite response_wrapper_eq. split.
  - destruct (func args kwargs s) as [s1 [v|e]]; reflexivity.
  - intros s1 e ->. reflexivity.
Qed.

(** X2. When the call returns a response whose [headers] and [code] can be
    read and the trace context accepts the update, the update carries the
    connection's host, that status and those headers, and an empty body:
    the response is not read. *)
Theorem response_recorded_without_body func instance args kwargs
    s s1 s2 s3 s4 s5 s6 ret_val headers status_code host :
  func args kwargs s = (s1, Ret ret_val) ->
  py_getattribute ret_val "headers" s1 = (s2, Ret headers) ->
  py_getattribute ret_val "code" s2 = (s3, Ret status_code) ->
  get_span s3 = (s4, Ret tt) ->
  py_getattribute instance "host" s4 = (s5, Ret host) ->
  update_event_response host status_code headers (VBytes "") s5 = (s6, Ret tt) ->
  _response_wrapper func instance args kwargs s = (s6, Ret ret_val).
Proof.
  intros Hf Hh Hc Hs Hho Hu. rewrite response_wrapper_eq, Hf.
  unfold parse_response. unfold_monad.
  rewrite Hh. cbn [fst snd]. rewrite Hc. cbn [fst snd]. rewrite Hs. cbn [fst snd].
  rewrite Hho. cbn [fst snd]. rewrite Hu. reflexivity.
Qed.

(** X3. A failure while recording the response (an attribute that cannot
    be read, no span, a failing update) is logged under "parse response" and
    the response is still returned. *)
Theorem response_recording_failure_absorbed func instance args kwargs s s1 ret_val fs e :
  func args kwargs s = (s1, Ret ret_val) ->
  parse_response instance ret_val (tt, s1) = (fs, Raise e) ->
  _response_wrapper func instance args kwargs s
    = (add_log (LogException "parse response" e) (snd fs), Ret ret_val).
Proof.
  intros Hf Hp. rewrite response_wrapper_eq, Hf.
  unfold lumigo_safe_execute. rewrite Hp. reflexivity.
Qed.

(** X4. When the read returns nothing (empty bytes, [None]), [_read_wrapper]
    is the read itself: no attribute is looked up, the trace context is not
    called, nothing is logged. *)
Theorem read_wrapper_empty_read func instance args kwargs s s1 ret_val :
  func args kwargs s = (s1, Ret ret_val) ->
  truthy ret_val = false ->
  _read_wrapper func instance args kwargs s = (s1, Ret ret_val).
Proof.
  intros Hf Ht. rewrite read_wrapper_eq, Hf, Ht. reflexivity.
Qed.

(** X5. [_read_wrapper] never changes the outcome of the read: it returns
    what the read returns and raises what the read raises, whatever the
    response object and the trace context do. *)
Theorem read_wrapper_transparent func instance args kwargs s :
  snd (_read_wrapper func instance args kwargs s) = snd (func args kwargs s)
  /\ (forall s1 e,
        func args kwargs s = (s1, Raise e) ->
        _read_wrapper func instance args kwargs s = (s1, Raise e)).
Proof.
  rewrite read_wrapper_eq. split.
  - destruct (func args kwargs s) as [s1 [v|e]]; reflexivity.
  - intros s1 e ->. reflexivity.
Qed.

(** X6. When the read returns bytes and the response's [code] and
    [headers] can be read, the update carries no host, that status, those
    headers and, as body, the very bytes the caller receives. *)
Theorem read_recorded_with_body func instance args kwargs
    s s1 s2 s3 s4 s5 body code headers :
  func args kwargs s = (s1, Ret (VBytes body)) ->
  body <> "" ->
  get_span s1 = (s2, Ret tt) ->
  py_getattribute instance "code" s2 = (s3, Ret code) ->
  py_getattribute instance "headers" s3 = (s4, Ret headers) ->
  update_event_response VNone code headers (VBytes body) s4 = (s5, Ret tt) ->
  _read_wrapper func instance args kwargs s = (s5, Ret (VBytes body)).
Proof.
  intros Hf Hne Hs Hc Hh Hu. rewrite read_wrapper_eq, Hf.
  assert (Ht : truthy (VBytes body) = true).
  { cbn [truthy]. destruct body; [congruence | reflexivity]. }
  rewrite Ht. unfold parse_response_read. unfold_monad.
  rewrite Hs. cbn [fst snd]. rewrite Hc. cbn [fst snd]. rewrite Hh. cbn [fst snd].
  rewrite Hu. reflexivity.
Qed.

(** *** More on the invocation lifecycle *)

Lemma wrap_http_calls_print s :
  builtins_print (fst (wrap_http_calls s)) = builtins_print s.
Proof.
  unfold wrap_http_calls, install, wrap_function_wrapper. unfold_monad.
  destruct (already_wrapped s); cbn [negb fst snd]; [reflexivity|].
  repeat case_wrapt; reflexivity.
Qed.

(** The steps before the wrapped function, spelled out. *)
Lemma pre_run_outcome_eq args s :
  pre_run_outcome args s =
    match is_enhanced_print s with
    | Raise e => (s, Raise e)
    | Ret enhanced =>
        let s0 := if enhanced && (2 <=? length args)%nat
                  then set_builtins_print (request_id_prefix args :: builtins_print s) s
                  else s in
        match span_raises (create_span args) s0 with
        | Some e => (s0, Raise e)
        | None =>
            match span_raises span_start (add_span_call (create_span args) s0) with
            | Some e => (add_span_call (create_span args) s0, Raise e)
            | None =>
                wrap_http_calls
                  (add_span_call span_start (add_span_call (create_span args) s0))
            end
        end
    end.
Proof.
  unfold pre_run_outcome, pre_run, span_do, request_id_prefix. unfold_monad.
  destruct (is_enhanced_print s) as [b|e0]; cbn [fst snd]; [|reflexivity].
  destruct b; [destruct (2 <=? length args)%nat|]; cbn [fst snd andb local_print];
    match goal with
    | |- context [span_raises (create_span args) ?s0] =>
        destruct (span_raises (create_span args) s0); cbn [fst snd]; [reflexivity|];
        destruct (span_raises span_start (add_span_call (create_span args) s0));
        cbn [fst snd]; [reflexivity|];
        destruct (wrap_http_calls _) as [s3 r]; reflexivity
    end.
Qed.

Lemma traced_call_raise_then_end_failure func args kwargs s s1 s2 e0 e :
  pre_run_outcome args s = (s1, Ret tt) ->
  func args kwargs s1 = (s2, Raise e0) ->
  exn_is_Exception e0 = true ->
  span_raises (add_exception_event e0) s2 = None ->
  span_raises (span_end VNone) (add_span_call (add_exception_event e0) s2) = Some e ->
  traced_call func args kwargs s = (add_span_call (add_exception_event e0) s2, Raise e).
Proof.
  unfold pre_run_outcome. intros Hpre Hfunc Hexc Hrec Hend.
  unfold traced_call. unfold bind at 1, gets, with_locals at 1, try_except at 1.
  rewrite (bind_eq (pre_run args)), pre_run_split, Hpre. cbn [fst snd].
  unfold run, span_do. unfold_monad. rewrite Hfunc. cbn [fst snd].
  rewrite Hexc, Hrec. cbn [fst snd ret_val set_executed].
  rewrite Hend. cbn [fst snd executed local_print set_executed negb].
  destruct (exn_is_Exception e); reflexivity.
Qed.

Lemma traced_call_recording_failure func args kwargs s s1 s2 e0 e1 :
  pre_run_outcome args s = (s1, Ret tt) ->
  func args kwargs s1 = (s2, Raise e0) ->
  exn_is_Exception e0 = true ->
  span_raises (add_exception_event e0) s2 = Some e1 ->
  span_raises (span_end VNone) s2 = None ->
  traced_call func args kwargs s =
    (set_builtins_print (builtins_print s) (add_span_call (span_end VNone) s2), Raise e1).
Proof.
  unfold pre_run_outcome. intros Hpre Hfunc Hexc Hrec Hend.
  unfold traced_call. unfold bind at 1, gets, with_locals at 1, try_except at 1.
  rewrite (bind_eq (pre_run args)), pre_run_split, Hpre. cbn [fst snd].
  unfold run, span_do. unfold_monad. rewrite Hfunc. cbn [fst snd].
  rewrite Hexc, Hrec. cbn [fst snd ret_val set_executed].
  rewrite Hend. cbn [fst snd executed local_print set_executed negb].
  destruct (exn_is_Exception e1); reflexivity.
Qed.

Lemma traced_call_base_exception_in_run func args kwargs s s1 s2 e :
  pre_run_outcome args s = (s1, Ret tt) ->
  func args kwargs s1 = (s2, Raise e) ->
  exn_is_Exception e = false ->
  span_raises (span_end VNone) s2 = None ->
  traced_call func args kwargs s =
    (set_builtins_print (builtins_print s) (add_span_call (span_end VNone) s2), Raise e).
Proof.
  unfold pre_run_outcome. intros Hpre Hfunc Hexc Hend.
  unfold traced_call. unfold bind at 1, gets, with_locals at 1, try_except at 1.
  rewrite (bind_eq (pre_run args)), pre_run_split, Hpre. cbn [fst snd].
  unfold run, span_do. unfold_monad. rewrite Hfunc. cbn [fst snd].
  rewrite Hexc. cbn [fst snd ret_val set_executed].
  rewrite Hend. cbn [fst snd executed local_print set_executed negb].
  rewrite Hexc. reflexivity.
Qed.

(** X7. With the kill switch off and the preceding steps done, a handler
    that returns [v] makes the wrapper return [v]; the span is ended with
    [v] and the print function found at entry is put back. *)
Theorem handler_result_returned func args kwargs s s1 s2 v :
  kill_switch_on s = false ->
  pre_run_outcome args s = (s1, Ret tt) ->
  func args kwargs s1 = (s2, Ret v) ->
  span_raises (span_end v) s2 = None ->
  lambda_wrapper func args kwargs s =
    (set_builtins_print (builtins_print s) (add_span_call (span_end v) s2), Ret v).
Proof.
  intros Hk Hpre Hfunc Hend. rewrite (lambda_wrapper_enabled _ _ _ _ Hk).
  exact (traced_call_returns func args kwargs s s1 s2 v Hpre Hfunc Hend).
Qed.

(** X8. Once the handler has run, a failure to end the span is what the
    wrapper raises: the handler's return value is lost, and so is the
    handler's own exception when it raised one.  The print function is not
    put back. *)
Theorem end_failure_replaces_outcome func args kwargs s s1 s2 e :
  kill_switch_on s = false ->
  pre_run_outcome args s = (s1, Ret tt) ->
  (forall v,
     func args kwargs s1 = (s2, Ret v) ->
     span_raises (span_end v) s2 = Some e ->
     lambda_wrapper func args kwargs s = (s2, Raise e))
  /\ (forall e0,
        func args kwargs s1 = (s2, Raise e0) ->
        exn_is_Exception e0 = true ->
        span_raises (add_exception_event e0) s2 = None ->
        span_raises (span_end VNone) (add_span_call (add_exception_event e0) s2) = Some e ->
        lambda_wrapper func args kwargs s
          = (add_span_call (add_exception_event e0) s2, Raise e)).
Proof.
  intros Hk Hpre. rewrite (lambda_wrapper_enabled _ _ _ _ Hk). split.
  - intros v Hfunc Hend.
    exact (traced_call_end_failure func args kwargs s s1 s2 v e Hpre Hfunc Hend).
  - intros e0 Hfunc Hexc Hrec Hend.
    exact (traced_call_raise_then_end_failure func args kwargs s s1 s2 e0 e
             Hpre Hfunc Hexc Hrec Hend).
Qed.

(** X9. When the handler raises and recording the exception event itself
    fails, the wrapper still ends the span and puts the print function
    back, and raises the recording failure, not the handler's exception. *)
Theorem recording_failure_replaces_exception func args kwargs s s1 s2 e0 e1 :
  kill_switch_on s = false ->
  pre_run_outcome args s = (s1, Ret tt) ->
  func args kwargs s1 = (s2, Raise e0) ->
  exn_is_Exception e0 = true ->
  span_raises (add_exception_event e0) s2 = Some e1 ->
  span_raises (span_end VNone) s2 = None ->
  lambda_wrapper func args kwargs s =
    (set_builtins_print (builtins_print s) (add_span_call (span_end VNone) s2), Raise e1).
Proof.
  intros Hk Hpre Hfunc Hexc Hrec Hend. rewrite (lambda_wrapper_enabled _ _ _ _ Hk).
  exact (traced_call_recording_failure func args kwargs s s1 s2 e0 e1
           Hpre Hfunc Hexc Hrec Hend).
Qed.

(** X10. An exception of the handler that is not an instance of Exception
    (SystemExit, KeyboardInterrupt) is not recorded as an exception event;
    the span is ended, the print function is put back and the exception
    goes on to the caller. *)
Theorem base_exception_ends_span_unrecorded func args kwargs s s1 s2 e :
  kill_switch_on s = false ->
  pre_run_outcome args s = (s1, Ret tt) ->
  func args kwargs s1 = (s2, Raise e) ->
  exn_is_Exception e = false ->
  span_raises (span_end VNone) s2 = None ->
  lambda_wrapper func args kwargs s =
    (set_builtins_print (builtins_print s) (add_span_call (span_end VNone) s2), Raise e).
Proof.
  intros Hk Hpre Hfunc Hexc Hend. rewrite (lambda_wrapper_enabled _ _ _ _ Hk).
  exact (traced_call_base_exception_in_run func args kwargs s s1 s2 e Hpre Hfunc Hexc Hend).
Qed.

(** X11. With enhanced print on and at least two arguments, the handler
    runs with a print function that prefixes "RequestId: " and the context's
    [aws_request_id]; when the handler has returned and the span is ended,
    the print function found at entry is back. *)
Theorem enhanced_print_scoped_to_run func args kwargs s s1 s2 v :
  kill_switch_on s = false ->
  is_enhanced_print s = Ret true ->
  2 <= length args ->
  pre_run_outcome args s = (s1, Ret tt) ->
  func args kwargs s1 = (s2, Ret v) ->
  span_raises (span_end v) s2 = None ->
  builtins_print s1 = request_id_prefix args :: builtins_print s
  /\ builtins_print (fst (lambda_wrapper func args kwargs s)) = builtins_print s.
Proof.
  intros Hk Hen Hlen Hpre Hfunc Hend. split.
  - rewrite pre_run_outcome_eq, Hen in Hpre. cbv zeta in Hpre.
    apply Nat.leb_le in Hlen. rewrite Hlen in Hpre. cbn [andb] in Hpre.
    destruct (span_raises (create_span args) _); [discriminate|].
    destruct (span_raises span_start _); [discriminate|].
    match type of Hpre with
    | wrap_http_calls ?x = _ => pose proof (wrap_http_calls_print x) as Hp
    end.
    rewrite Hpre in Hp. exact Hp.
  - rewrite (lambda_wrapper_enabled _ _ _ _ Hk).
    rewrite (traced_call_returns func args kwargs s s1 s2 v Hpre Hfunc Hend).
    reflexivity.
Qed.

(** X12. With enhanced print on and at least two arguments, when creating
    the trace context fails the handler is called with the prefixing print
    function installed, and the wrapper does not put the original back: the
    state it hands to the handler, and so the one it leaves unless the
    handler changes it, has the prefix layer on. *)
Theorem enhanced_print_left_on_bypass func args kwargs s e :
  kill_switch_on s = false ->
  is_enhanced_print s = Ret true ->
  2 <= length args ->
  span_raises (create_span args)
    (set_builtins_print (request_id_prefix args :: builtins_print s) s) = Some e ->
  exn_is_Exception e = true ->
  lambda_wrapper func args kwargs s =
    func args kwargs
      (add_log (LogException "exception in the wrapper" e)
         (set_builtins_print (request_id_prefix args :: builtins_print s) s)).
Proof.
  intros Hk Hen Hlen Hcreate Hexc. rewrite (lambda_wrapper_enabled _ _ _ _ Hk).
  apply traced_call_bypass; [|exact Hexc].
  rewrite pre_run_outcome_eq, Hen. cbv zeta.
  apply Nat.leb_le in Hlen. rewrite Hlen. cbn [andb]. rewrite Hcreate. reflexivity.
Qed.

(** X13. A failed installation does not cost the invocation its trace:
    the failure is logged by the installer, the handler runs after it, its
    result is returned and the span is ended with it. *)
Theorem install_failure_still_traced func args kwargs s fs e s4 v :
  kill_switch_on s = false ->
  is_enhanced_print s = Ret false ->
  span_raises (create_span args) s = None ->
  span_raises span_start (add_span_call (create_span args) s) = None ->
  already_wrapped s = false ->
  install tt (tt, add_span_call span_start (add_span_call (create_span args) s))
    = (fs, Raise e) ->
  func args kwargs (add_log (LogException "wrap http calls" e) (snd fs)) = (s4, Ret v) ->
  span_raises (span_end v) s4 = None ->
  lambda_wrapper func args kwargs s =
    (set_builtins_print (builtins_print s) (add_span_call (span_end v) s4), Ret v).
Proof.
  intros Hk Hen Hcreate Hstart Hflag Hinst Hfunc Hend.
  rewrite (lambda_wrapper_enabled _ _ _ _ Hk).
  eapply traced_call_returns; [|exact Hfunc|exact Hend].
  rewrite pre_run_outcome_eq, Hen. cbv zeta. cbn [andb].
  rewrite Hcreate, Hstart.
  apply wrap_http_calls_failure; [exact Hflag | exact Hinst].
Qed.

(** *** More on the installer *)

Lemma repeat_installed_state n s :
  already_wrapped s = true -> fst (repeat_call n wrap_http_calls s) = s.
Proof. intros H. rewrite (repeat_installed n s H). reflexivity. Qed.

Lemma wrap_http_calls_partial s e :
  already_wrapped s = false ->
  (forall s', wrapt_raises "http.client" "HTTPConnection.send" s' = None) ->
  (forall s', wrapt_raises "botocore.awsrequest" "AWSRequest.__init__" s' = Some e) ->
  wrap_http_calls s =
    (add_log (LogException "wrap http calls" e)
       (add_patch send_patch (add_log (LogDebug "wrapping the http request") s)),
     Ret tt).
Proof.
  intros Hflag Hsend Hboto.
  apply (wrap_http_calls_failure s
           (tt, add_patch send_patch (add_log (LogDebug "wrapping the http request") s)) e);
    [exact Hflag|].
  unfold install, wrap_function_wrapper. unfold_monad.
  rewrite Hsend. cbn [fst snd]. rewrite Hboto. reflexivity.
Qed.

(** X14. With every entry point resolvable, any number of invocations, one
    or more, leaves each of the four entry points patched exactly once, the
    flag set and one debug line in the log. *)
Theorem installed_exactly_once n s :
  already_wrapped s = false ->
  (forall m k s', wrapt_raises m k s' = None) ->
  patches (fst (repeat_call (S n) wrap_http_calls s)) = patches s ++ four_patches
  /\ already_wrapped (fst (repeat_call (S n) wrap_http_calls s)) = true
  /\ log (fst (repeat_call (S n) wrap_http_calls s))
     = log s ++ [LogDebug "wrapping the http request"].
Proof.
  intros Hflag Hok. cbn [repeat_call].
  rewrite bind_eq, (wrap_http_calls_success s Hflag Hok).
  rewrite repeat_installed by reflexivity. cbn.
  rewrite <- !app_assoc. repeat split; reflexivity.
Qed.

(** X15. When the first patch succeeds and the second never does (botocore
    is not importable), the flag is never set and every invocation patches
    [HTTPConnection.send] once more: after [n] invocations it is wrapped [n]
    times. *)
Theorem partial_install_accumulates n s e :
  already_wrapped s = false ->
  (forall s', wrapt_raises "http.client" "HTTPConnection.send" s' = None) ->
  (forall s', wrapt_raises "botocore.awsrequest" "AWSRequest.__init__" s' = Some e) ->
  patches (fst (repeat_call n wrap_http_calls s)) = patches s ++ repeat send_patch n
  /\ already_wrapped (fst (repeat_call n wrap_http_calls s)) = false.
Proof.
  intros Hflag Hsend Hboto. revert s Hflag.
  induction n as [|n IH]; intros s Hflag.
  - cbn. rewrite app_nil_r. split; [reflexivity | exact Hflag].
  - cbn [repeat_call]. rewrite bind_eq, (wrap_http_calls_partial s e Hflag Hsend Hboto).
    match goal with
    | |- context [repeat_call n wrap_http_calls ?s'] =>
        destruct (IH s' Hflag) as [Hp Hf]
    end.
    split; [|exact Hf]. rewrite Hp. cbn [patches add_log add_patch repeat].
    rewrite <- app_assoc. reflexivity.
Qed.

(** *** More on the header injector *)

(** X16. When the request is built with a [headers] dict and the trace
    context hands out a root, the original call is made with the same
    positional arguments and with keywords that differ in one place only:
    the dict now maps "X-Amzn-Trace-Id" to the root, replacing any earlier
    value, and keeps every other header. *)
Theorem putheader_sets_trace_header func instance args kwargs s root d :
  get_patched_root s = Ret root ->
  kwargs !! "headers" = Some (VDict d) ->
  exists d' kwargs',
    _putheader_wrapper func instance args kwargs s = func args kwargs' s
    /\ kwargs' !! "headers" = Some (VDict d')
    /\ (forall k, k <> "headers" -> kwargs' !! k = kwargs !! k)
    /\ d' !! "X-Amzn-Trace-Id" = Some root
    /\ (forall k, k <> "X-Amzn-Trace-Id" -> d' !! k = d !! k).
Proof.
  intros Hroot Hh.
  exists (<["X-Amzn-Trace-Id" := root]> d),
         (<["headers" := VDict (<["X-Amzn-Trace-Id" := root]> d)]> kwargs).
  split; [exact (putheader_injects func instance args kwargs s root d Hroot Hh)|].
  split; [apply lookup_insert_eq|].
  split; [intros k Hk; apply lookup_insert_ne; congruence|].
  split; [apply lookup_insert_eq|].
  intros k Hk. apply lookup_insert_ne. congruence.
Qed.

(** *** The adapter's call *)

Lemma getattr_or_none_found obj name s s1 v :
  obj <> VNone ->
  py_getattribute obj name s = (s1, Ret v) ->
  getattr_or_none obj name s = (s1, Ret v).
Proof.
  intros Hn H. unfold getattr_or_none.
  destruct obj; try congruence; rewrite H; reflexivity.
Qed.

Lemma getattr_or_none_missing obj name s s1 e :
  obj <> VNone ->
  py_getattribute obj name s = (s1, Raise e) ->
  exn_type e = "AttributeError" ->
  getattr_or_none obj name s = (s1, Ret VNone).
Proof.
  intros Hn H He. unfold getattr_or_none.
  destruct obj; try congruence; rewrite H, He; reflexivity.
Qed.

Lemma call_without_request self args kwargs s s1 e :
  app self <> VNone ->
  length args < 2 ->
  kwargs !! "context" = None ->
  py_getattribute (app self) "current_request" s = (s1, Raise e) ->
  exn_type e = "AttributeError" ->
  __call__ self args kwargs s
    = lumigo_app_of self args (<["context" := VNone]> kwargs) s1.
Proof.
  intros Happ Hlen Hctx Hget He. unfold __call__.
  apply Nat.ltb_lt in Hlen. rewrite Hlen, Hctx.
  rewrite bool_decide_eq_false_2 by (intros [x Hx]; discriminate). cbn [andb negb].
  rewrite bind_eq, (getattr_or_none_missing _ _ _ _ _ Happ Hget He).
  rewrite bind_eq. reflexivity.
Qed.

(** X17. With two positional arguments, or with a [context] keyword, the
    adapter's call is the traced application called with the arguments as
    given: no attribute of the application is looked up and no keyword is
    added. *)
Theorem call_forwards_given_context self args kwargs s :
  2 <= length args \/ is_Some (kwargs !! "context") ->
  __call__ self args kwargs s = lambda_wrapper (py_call (app self)) args kwargs s.
Proof.
  intros H. unfold __call__.
  destruct H as [Hlen|Hctx].
  - apply Nat.ltb_ge in Hlen. rewrite Hlen. reflexivity.
  - rewrite (bool_decide_eq_true_2 _ Hctx), andb_false_r. reflexivity.
Qed.

(** X18. With fewer than two positional arguments and no [context] keyword,
    the traced application is called with one more keyword, [context]: the
    [context] of the application's [current_request] when both can be read,
    [None] when [current_request] is [None] or the application has none. *)
Theorem call_injects_default_context self args kwargs s :
  app self <> VNone ->
  length args < 2 ->
  kwargs !! "context" = None ->
  (forall s1 s2 request context,
     request <> VNone ->
     py_getattribute (app self) "current_request" s = (s1, Ret request) ->
     py_getattribute request "context" s1 = (s2, Ret context) ->
     __call__ self args kwargs s
       = lambda_wrapper (py_call (app self)) args (<["context" := context]> kwargs) s2)
  /\ (forall s1,
        py_getattribute (app self) "current_request" s = (s1, Ret VNone) ->
        __call__ self args kwargs s
          = lambda_wrapper (py_call (app self)) args (<["context" := VNone]> kwargs) s1)
  /\ (forall s1 e,
        py_getattribute (app self) "current_request" s = (s1, Raise e) ->
        exn_type e = "AttributeError" ->
        __call__ self args kwargs s
          = lambda_wrapper (py_call (app self)) args (<["context" := VNone]> kwargs) s1).
Proof.
  intros Happ0 Hlen Hctx. split; [|split].
  - intros s1 s2 request context Hreq Hget1 Hget2. unfold __call__.
    apply Nat.ltb_lt in Hlen. rewrite Hlen, Hctx.
    rewrite bool_decide_eq_false_2 by (intros [x Hx]; discriminate). cbn [andb negb].
    rewrite bind_eq.
    assert (Happ : getattr_or_none (app self) "current_request" s = (s1, Ret request)).
    { exact (getattr_or_none_found _ _ _ _ _ Happ0 Hget1). }
    rewrite Happ, bind_eq, (getattr_or_none_found _ _ _ _ _ Hreq Hget2). reflexivity.
  - intros s1 Hget. unfold __call__.
    apply Nat.ltb_lt in Hlen. rewrite Hlen, Hctx.
    rewrite bool_decide_eq_false_2 by (intros [x Hx]; discriminate). cbn [andb negb].
    rewrite bind_eq, (getattr_or_none_found _ _ _ _ _ Happ0 Hget), bind_eq. reflexivity.
  - intros s1 e Hget He.
    exact (call_without_request self args kwargs s s1 e Happ0 Hlen Hctx Hget He).
Qed.

(** X19. The kill switch does not make the adapter's call transparent:
    with the switch on, fewer than two positional arguments, no [context]
    keyword and an application without [current_request], the application
    is called directly, but with the keyword [context=None] added. *)
Theorem call_under_kill_switch_adds_context self args kwargs s s1 e :
  app self <> VNone ->
  length args < 2 ->
  kwargs !! "context" = None ->
  py_getattribute (app self) "current_request" s = (s1, Raise e) ->
  exn_type e = "AttributeError" ->
  kill_switch_on s1 = true ->
  __call__ self args kwargs s = py_call (app self) args (<["context" := VNone]> kwargs) s1.
Proof.
  intros Happ Hlen Hctx Hget He Hk.
  rewrite (call_without_request self args kwargs s s1 e Happ Hlen Hctx Hget He).
  unfold lumigo_app_of, _lumigo_tracer, lambda_wrapper, bind, gets.
  rewrite Hk. reflexivity.
Qed.

(** *** More on the request wrapper *)

Lemma other_data_block_skipped args s :
  (forall ref, safe_get args 0 <> VBytesIO ref) ->
  lumigo_safe_execute "parse requested streams" (parse_requested_streams args)
      (initial_locals args, s)
    = ((initial_locals args, s), Ret tt).
Proof.
  intros Hdata. unfold parse_requested_streams, initial_locals. unfold_monad.
  cbn [rl_data]. destruct (safe_get args 0); try reflexivity.
  exfalso. eapply Hdata. reflexivity.
Qed.

Lemma parse_block_not_bytes instance l s :
  (forall d, rl_data l <> VBytes d) ->
  lumigo_safe_execute "parse request" (parse_request instance) (l, s) = ((l, s), Ret tt).
Proof.
  intros Hdata. unfold parse_request. unfold_monad.
  destruct (rl_data l); try reflexivity. exfalso. eapply Hdata. reflexivity.
Qed.

Lemma parse_block_bare instance l s d hb body :
  rl_data l = VBytes d ->
  Py.partition1 _BODY_HEADER_SPLITTER d = Some (hb, body) ->
  Py.contains _FLAGS_HEADER_SPLITTER hb = false ->
  lumigo_safe_execute "parse request" (parse_request instance) (l, s)
    = ((set_body (VBytes body) (set_headers (HRaw hb) l), s), Ret tt).
Proof.
  intros Hdata Hcut Hno. unfold parse_request, unpack2. unfold_monad.
  rewrite Hdata, (partition1_contains _ _ _ _ Hcut), (split1_partition _ _ _ _ Hcut).
  cbn [fst snd]. unfold_monad. rewrite Hno. reflexivity.
Qed.

Lemma parse_block_not_ascii instance l s d hb body line rest m :
  rl_data l = VBytes d ->
  Py.partition1 _BODY_HEADER_SPLITTER d = Some (hb, body) ->
  Py.partition1 _FLAGS_HEADER_SPLITTER hb = Some (line, rest) ->
  parse_headers rest = Ret m ->
  Py.is_ascii line = false ->
  lumigo_safe_execute "parse request" (parse_request instance) (l, s)
    = ((set_headers (HParsed m) (set_headers (HRaw rest)
          (set_body (VBytes body) (set_headers (HRaw hb) l))),
        add_log (LogException "parse request"
                   (UnicodeDecodeError "ordinal not in range(128)")) s),
       Ret tt).
Proof.
  intros Hdata Hcut1 Hcut2 Hparse Hascii.
  unfold parse_request, unpack2, decode_ascii. unfold_monad.
  rewrite Hdata, (partition1_contains _ _ _ _ Hcut1), (split1_partition _ _ _ _ Hcut1).
  cbn [fst snd]. unfold_monad.
  rewrite (partition1_contains _ _ _ _ Hcut2), (split1_partition _ _ _ _ Hcut2).
  cbn [fst snd]. unfold_monad.
  rewrite Hparse, Hascii. reflexivity.
Qed.

Lemma parse_block_no_method instance l s d hb body line rest m :
  rl_data l = VBytes d ->
  Py.partition1 _BODY_HEADER_SPLITTER d = Some (hb, body) ->
  Py.partition1 _FLAGS_HEADER_SPLITTER hb = Some (line, rest) ->
  parse_headers rest = Ret m ->
  Py.is_ascii line = true ->
  rl_method l = None ->
  lumigo_safe_execute "parse request" (parse_request instance) (l, s)
    = ((set_headers (HParsed m) (set_headers (HRaw rest)
          (set_body (VBytes body) (set_headers (HRaw hb) l))),
        add_log (LogException "parse request"
                   (TypeError "replace() argument 1 must be str, not None")) s),
       Ret tt).
Proof.
  intros Hdata Hcut1 Hcut2 Hparse Hascii Hmth.
  unfold parse_request, unpack2, decode_ascii, str_replace. unfold_monad.
  rewrite Hdata, (partition1_contains _ _ _ _ Hcut1), (split1_partition _ _ _ _ Hcut1).
  cbn [fst snd]. unfold_monad.
  rewrite (partition1_contains _ _ _ _ Hcut2), (split1_partition _ _ _ _ Hcut2).
  cbn [fst snd]. unfold_monad.
  rewrite Hparse, Hascii. cbn [fst snd rl_method set_headers set_body].
  rewrite Hmth. reflexivity.
Qed.

(** X20. An open stream is treated as the byte buffer of its next
    [MAX_READ_SIZE] bytes: the interception records the same thing, and
    leaves the same local variables, as for that buffer.  So a request whose
    double CRLF lies beyond the first [MAX_READ_SIZE] bytes of the stream is
    recorded unparsed, with that prefix as body. *)
Theorem stream_parsed_as_its_prefix instance rest s ref buf pos :
  heap s !! ref = Some (mkBytesIO buf pos false) ->
  let chunk := Py.take MAX_READ_SIZE (Py.drop pos buf) in
  state_at_send instance (VBytesIO ref :: rest) s
    = state_at_send instance (VBytes chunk :: rest) s
  /\ locals_at_send instance (VBytesIO ref :: rest) s
     = locals_at_send instance (VBytes chunk :: rest) s
  /\ (Py.contains _BODY_HEADER_SPLITTER chunk = false ->
      span_raises
        (add_unparsed_request
           (mkHttpRequest (conn_host instance) (conn_method instance) None HNone
                          (VBytes chunk))) s = None ->
      state_at_send instance (VBytesIO ref :: rest) s
        = add_span_call
            (add_unparsed_request
               (mkHttpRequest (conn_host instance) (conn_method instance) None HNone
                              (VBytes chunk))) s).
Proof.
  intros Hheap chunk.
  assert (Hs : state_at_send instance (VBytesIO ref :: rest) s
               = state_at_send instance (VBytes chunk :: rest) s
             /\ locals_at_send instance (VBytesIO ref :: rest) s
               = locals_at_send instance (VBytes chunk :: rest) s).
  { unfold state_at_send, locals_at_send. rewrite !prologue_eq. cbv zeta.
    rewrite (stream_block_open (VBytesIO ref :: rest) s ref buf pos eq_refl Hheap).
    rewrite (bytes_block_skipped (VBytes chunk :: rest) s chunk eq_refl).
    split; reflexivity. }
  destruct Hs as [Hs Hl]. split; [exact Hs|]. split; [exact Hl|].
  intros Hno Hok. rewrite Hs.
  exact (state_at_send_unparsed instance (VBytes chunk :: rest) s chunk eq_refl Hno
           _ eq_refl Hok).
Qed.

(** X21. A buffer whose header block holds no CRLF (a request line alone,
    followed by the blank line) is not parsed further: the event is added
    through [add_request_event] with the raw header block as its headers,
    the bytes after the blank line as its body and no URI.  When the header
    block is empty the buffer is recorded unparsed instead. *)
Theorem bare_header_block_recorded_raw instance args s d hb body :
  safe_get args 0 = VBytes d ->
  Py.partition1 _BODY_HEADER_SPLITTER d = Some (hb, body) ->
  Py.contains _FLAGS_HEADER_SPLITTER hb = false ->
  (hb <> "" ->
   span_raises
     (add_request_event
        (mkHttpRequest (conn_host instance) (conn_method instance) None (HRaw hb)
                       (VBytes body))) s = None ->
   state_at_send instance args s
     = add_span_call
         (add_request_event
            (mkHttpRequest (conn_host instance) (conn_method instance) None (HRaw hb)
                           (VBytes body))) s)
  /\ (hb = "" ->
      span_raises
        (add_unparsed_request
           (mkHttpRequest (conn_host instance) (conn_method instance) None HNone
                          (VBytes d))) s = None ->
      state_at_send instance args s
        = add_span_call
            (add_unparsed_request
               (mkHttpRequest (conn_host instance) (conn_method instance) None HNone
                              (VBytes d))) s).
Proof.
  intros Hdata Hcut Hno.
  assert (Hpre : fst (request_prologue instance args (initial_locals args, s))
                 = fst (lumigo_safe_execute "add request event" (add_request tt)
                          (mkLocals (VBytes d) (conn_host instance) (conn_method instance)
                                    (HRaw hb) (VBytes body) None, s))).
  { rewrite prologue_eq. cbv zeta.
    rewrite (bytes_block_skipped _ _ _ Hdata). cbn [fst snd].
    erewrite parse_block_bare; [|unfold initial_locals; cbn [rl_data]; exact Hdata
                                |exact Hcut|exact Hno].
    unfold initial_locals. cbn [rl_data]. rewrite Hdata. reflexivity. }
  unfold state_at_send. rewrite Hpre. split.
  - intros Hne Hok. rewrite add_block_request; [reflexivity| |exact Hok].
    cbn [rl_headers headers_truthy]. destruct hb; [congruence | reflexivity].
  - intros -> Hok. rewrite add_block_unparsed; [reflexivity|reflexivity|exact Hok].
Qed.

(** X22. When the header lines parse but the request line cannot be turned
    into a path (a byte outside ASCII, or no method known on the
    connection), the failure is logged under "parse request" and the event
    is still added with the parsed headers and the body; it has no URI, and
    the host is the connection's, without the fallback to the Host header. *)
Theorem late_parse_failure_keeps_headers instance args s d hb body line rest m :
  safe_get args 0 = VBytes d ->
  Py.partition1 _BODY_HEADER_SPLITTER d = Some (hb, body) ->
  Py.partition1 _FLAGS_HEADER_SPLITTER hb = Some (line, rest) ->
  parse_headers rest = Ret m ->
  m <> [] ->
  (forall s', span_raises
                (add_request_event
                   (mkHttpRequest (conn_host instance) (conn_method instance) None
                                  (HParsed m) (VBytes body))) s' = None) ->
  Py.is_ascii line = false \/ conn_method instance = None ->
  exists e,
    state_at_send instance args s
      = add_span_call
          (add_request_event
             (mkHttpRequest (conn_host instance) (conn_method instance) None
                            (HParsed m) (VBytes body)))
          (add_log (LogException "parse request" e) s).
Proof.
  intros Hdata Hcut1 Hcut2 Hparse Hm Hok Hwhy.
  assert (Ht : headers_truthy (HParsed m) = true)
    by (destruct m; [congruence | reflexivity]).
  unfold state_at_send. rewrite prologue_eq. cbv zeta.
  rewrite (bytes_block_skipped _ _ _ Hdata). cbn [fst snd].
  destruct (Py.is_ascii line) eqn:Hascii.
  - destruct Hwhy as [Hwhy|Hmth]; [discriminate|].
    eexists. erewrite parse_block_no_method; try eassumption; try reflexivity.
    cbn [fst snd]. rewrite add_block_request; [|exact Ht|].
    + unfold initial_locals. cbn. reflexivity.
    + unfold initial_locals. cbn. apply Hok.
  - eexists. erewrite parse_block_not_ascii; try eassumption; try reflexivity.
    cbn [fst snd]. rewrite add_block_request; [|exact Ht|].
    + unfold initial_locals. cbn. reflexivity.
    + unfold initial_locals. cbn. apply Hok.
Qed.

(** X23. When what is sent is neither bytes nor a BytesIO stream (nothing
    positional, a str, any other object), nothing is parsed and the event
    is recorded unparsed, with host and method of the connection and the
    object itself as body. *)
Theorem other_data_recorded_unparsed instance args s :
  (forall d, safe_get args 0 <> VBytes d) ->
  (forall ref, safe_get args 0 <> VBytesIO ref) ->
  span_raises
    (add_unparsed_request
       (mkHttpRequest (conn_host instance) (conn_method instance) None HNone
                      (safe_get args 0))) s = None ->
  state_at_send instance args s
    = add_span_call
        (add_unparsed_request
           (mkHttpRequest (conn_host instance) (conn_method instance) None HNone
                          (safe_get args 0))) s.
Proof.
  intros Hnb Hns Hok.
  unfold state_at_send. rewrite prologue_eq. cbv zeta.
  rewrite (other_data_block_skipped _ _ Hns). cbn [fst snd].
  rewrite parse_block_not_bytes by (unfold initial_locals; cbn [rl_data]; exact Hnb).
  cbn [fst snd]. rewrite add_block_unparsed; [reflexivity|reflexivity|exact Hok].
Qed.

Lemma stream_block_span args s :
  span (snd (fst (lumigo_safe_execute "parse requested streams"
                    (parse_requested_streams args) (initial_locals args, s))))
    = span s.
Proof.
  destruct (safe_get args 0) as [| | |ref| |] eqn:Hdata;
    try (rewrite other_data_block_skipped; [reflexivity|];
         intros ref'; rewrite Hdata; discriminate).
  destruct (heap s !! ref) as [[buf pos [|]]|] eqn:Hheap.
  - unfold parse_requested_streams, initial_locals, bio_tell; unfold_monad.
    cbn [rl_data]. rewrite Hdata. cbn [fst snd]. rewrite Hheap. reflexivity.
  - rewrite (stream_block_open args s ref buf pos Hdata Hheap). reflexivity.
  - unfold parse_requested_streams, initial_locals, bio_tell; unfold_monad.
    cbn [rl_data]. rewrite Hdata. cbn [fst snd]. rewrite Hheap. reflexivity.
Qed.

Lemma guarded_pure_span {L} part (body : M (L * state) unit) fs :
  pure_block body ->
  span (snd (fst (lumigo_safe_execute part body fs))) = span (snd fs).
Proof.
  intros Hp. unfold lumigo_safe_execute. specialize (Hp fs).
  destruct (body fs) as [fs' [[]|e]]; cbn [fst snd] in *; rewrite Hp; reflexivity.
Qed.

Lemma add_request_broken_span fs :
  (forall c s', span_raises c s' <> None) ->
  span (snd (fst (lumigo_safe_execute "add request event" (add_request tt) fs)))
    = span (snd fs).
Proof.
  intros Hbroken. unfold add_request, span_do. unfold_monad.
  destruct (headers_truthy _);
    match goal with
    | |- context [span_raises ?c ?s] =>
        pose proof (Hbroken c s); destruct (span_raises c s)
    end; cbn [fst snd]; first [reflexivity | congruence].
Qed.

(** X24. With a trace context that raises on every call, the interception
    records nothing and changes nothing but the log, and the outcome of the
    wrapper is the outcome of the real call. *)
Theorem broken_trace_context_records_nothing func instance args kwargs s :
  (forall c s', span_raises c s' <> None) ->
  span (state_at_send instance args s) = span s
  /\ same_process s (state_at_send instance args s)
  /\ snd (_request_wrapper func instance args kwargs s)
     = snd (func args kwargs (state_at_send instance args s))
  /\ span (fst (_request_wrapper func instance args kwargs s))
     = span (fst (func args kwargs (state_at_send instance args s))).
Proof.
  intros Hbroken.
  assert (Hspan : span (state_at_send instance args s) = span s).
  { unfold state_at_send. rewrite prologue_eq. cbv zeta.
    rewrite (add_request_broken_span _ Hbroken).
    rewrite (guarded_pure_span "parse request") by apply parse_request_pure.
    cbn [snd]. apply stream_block_span. }
  split; [exact Hspan|]. split; [apply prologue_frame|].
  rewrite request_wrapper_sends.
  destruct (func args kwargs (state_at_send instance args s)) as [s2 [v|e]];
    cbn [fst snd]; [|split; reflexivity].
  split; [reflexivity|]. unfold mark_end_time.
  pose proof (Hbroken update_event_end_time s2).
  destruct (span_raises update_event_end_time s2); [reflexivity | congruence].
Qed.

End MoreProperties.

(** ** The further properties at concrete inputs *)

(** X2 at a response with status and headers. *)
Lemma response_recorded_witness :
  _response_wrapper (C := well_behaved) (R := noting_trace)
      getresponse_stub http_connection [] ∅ empty_state
    = (add_log (LogDebug "update_event_response") empty_state, Ret http_response).
Proof.
  exact (response_recorded_without_body (C := well_behaved) (R := noting_trace)
           getresponse_stub http_connection [] ∅
           empty_state empty_state empty_state empty_state empty_state empty_state
           (add_log (LogDebug "update_event_response") empty_state)
           http_response
           (VObject 21 {[ "__name__" := "headers" ]})
           (VObject 21 {[ "__name__" := "code" ]})
           (VObject 11 {[ "__name__" := "host" ]})
           eq_refl eq_refl eq_refl eq_refl eq_refl eq_refl).
Defined.

(** X3 at a process without a span. *)
Lemma response_failure_witness :
  _response_wrapper (C := well_behaved) (R := no_span_trace)
      getresponse_stub http_connection [] ∅ empty_state
    = (add_log (LogException "parse response" tracing_broke) empty_state,
       Ret http_response).
Proof.
  exact (response_recording_failure_absorbed (C := well_behaved) (R := no_span_trace)
           getresponse_stub http_connection [] ∅ empty_state empty_state http_response
           (tt, empty_state) tracing_broke eq_refl eq_refl).
Defined.

(** X4 at a read that returns no bytes. *)
Lemma read_empty_witness :
  _read_wrapper (C := well_behaved) (R := noting_trace)
      (read_stub "") http_response [] ∅ empty_state
    = (empty_state, Ret (VBytes "")).
Proof.
  exact (read_wrapper_empty_read (C := well_behaved) (R := noting_trace)
           (read_stub "") http_response [] ∅ empty_state empty_state (VBytes "")
           eq_refl eq_refl).
Defined.

(** X6 at a read that returns five bytes. *)
Lemma read_recorded_witness :
  _read_wrapper (C := well_behaved) (R := noting_trace)
      (read_stub "hello") http_response [] ∅ empty_state
    = (add_log (LogDebug "update_event_response") empty_state, Ret (VBytes "hello")).
Proof.
  refine (read_recorded_with_body (C := well_behaved) (R := noting_trace)
            (read_stub "hello") http_response [] ∅
            empty_state empty_state empty_state empty_state empty_state
            (add_log (LogDebug "update_event_response") empty_state)
            "hello"
            (VObject 21 {[ "__name__" := "code" ]})
            (VObject 21 {[ "__name__" := "headers" ]})
            eq_refl _ eq_refl eq_refl eq_refl eq_refl).
  discriminate.
Defined.

(** X7 at a handler that returns its event. *)
Lemma handler_result_witness :
  snd (lambda_wrapper (C := well_behaved) echo_handler lambda_args ∅ empty_state)
    = Ret (VStr "event")
  /\ span (fst (lambda_wrapper (C := well_behaved) echo_handler lambda_args ∅ empty_state))
     = [create_span lambda_args; span_start; span_end (VStr "event")].
Proof.
  rewrite (handler_result_returned (C := well_behaved) echo_handler lambda_args ∅
             empty_state
             (fst (pre_run_outcome (C := well_behaved) lambda_args empty_state))
             (fst (pre_run_outcome (C := well_behaved) lambda_args empty_state))
             (VStr "event") eq_refl eq_refl eq_refl eq_refl).
  split; reflexivity.
Defined.

(** X8 at a trace context on which [end] fails. *)
Lemma end_failure_witness :
  snd (lambda_wrapper (C := collaborators span_end_fails never3)
         echo_handler lambda_args ∅ empty_state)
    = Raise tracing_broke.
Proof.
  rewrite (proj1 (end_failure_replaces_outcome
                    (C := collaborators span_end_fails never3)
                    echo_handler lambda_args ∅ empty_state
                    (fst (pre_run_outcome (C := collaborators span_end_fails never3)
                            lambda_args empty_state))
                    (fst (pre_run_outcome (C := collaborators span_end_fails never3)
                            lambda_args empty_state))
                    tracing_broke eq_refl eq_refl)
             (VStr "event") eq_refl eq_refl).
  reflexivity.
Defined.

(** X9 at a trace context on which [add_exception_event] fails. *)
Lemma recording_failure_witness :
  snd (lambda_wrapper (C := collaborators add_exception_event_fails never3)
         failing_handler lambda_args ∅ empty_state)
    = Raise tracing_broke.
Proof.
  rewrite (recording_failure_replaces_exception
             (C := collaborators add_exception_event_fails never3)
             failing_handler lambda_args ∅ empty_state
             (fst (pre_run_outcome (C := collaborators add_exception_event_fails never3)
                     lambda_args empty_state))
             (fst (pre_run_outcome (C := collaborators add_exception_event_fails never3)
                     lambda_args empty_state))
             boom tracing_broke eq_refl eq_refl eq_refl eq_refl eq_refl eq_refl).
  reflexivity.
Defined.

(** X10 at a handler that calls [sys.exit]. *)
Lemma base_exception_witness :
  snd (lambda_wrapper (C := well_behaved) exiting_handler lambda_args ∅ empty_state)
    = Raise system_exit
  /\ span (fst (lambda_wrapper (C := well_behaved) exiting_handler lambda_args ∅ empty_state))
     = [create_span lambda_args; span_start; span_end VNone].
Proof.
  rewrite (base_exception_ends_span_unrecorded (C := well_behaved)
             exiting_handler lambda_args ∅ empty_state
             (fst (pre_run_outcome (C := well_behaved) lambda_args empty_state))
             (fst (pre_run_outcome (C := well_behaved) lambda_args empty_state))
             system_exit eq_refl eq_refl eq_refl eq_refl eq_refl).
  split; reflexivity.
Defined.

(** X11 at an invocation with enhanced print on. *)
Lemma enhanced_print_witness :
  builtins_print
    (fst (pre_run_outcome (C := enhanced_print_on never) lambda_args empty_state))
    = ["RequestId: req-1"]
  /\ builtins_print
       (fst (lambda_wrapper (C := enhanced_print_on never)
               echo_handler lambda_args ∅ empty_state))
     = [].
Proof.
  refine (enhanced_print_scoped_to_run (C := enhanced_print_on never)
            echo_handler lambda_args ∅ empty_state
            (fst (pre_run_outcome (C := enhanced_print_on never) lambda_args empty_state))
            (fst (pre_run_outcome (C := enhanced_print_on never) lambda_args empty_state))
            (VStr "event") eq_refl eq_refl _ eq_refl eq_refl eq_refl).
  cbn. lia.
Defined.

(** X12 at an invocation with enhanced print on and a trace context that
    cannot be created: the wrapper leaves the prefixing print installed. *)
Lemma enhanced_print_bypass_witness :
  lambda_wrapper (C := enhanced_print_on create_span_fails)
      echo_handler lambda_args ∅ empty_state
    = (add_log (LogException "exception in the wrapper" tracing_broke)
         (set_builtins_print ["RequestId: req-1"] empty_state),
       Ret (VStr "event")).
Proof.
  refine (enhanced_print_left_on_bypass (C := enhanced_print_on create_span_fails)
            echo_handler lambda_args ∅ empty_state tracing_broke
            eq_refl eq_refl _ eq_refl eq_refl).
  cbn. lia.
Defined.

(** X13 at a process in which nothing can be patched. *)
Lemma install_failure_traced_witness :
  snd (lambda_wrapper (C := collaborators never nothing_resolves)
         echo_handler lambda_args ∅ empty_state)
    = Ret (VStr "event")
  /\ span (fst (lambda_wrapper (C := collaborators never nothing_resolves)
                  echo_handler lambda_args ∅ empty_state))
     = [create_span lambda_args; span_start; span_end (VStr "event")].
Proof.
  rewrite (install_failure_still_traced (C := collaborators never nothing_resolves)
             echo_handler lambda_args ∅ empty_state
             (fst (install (C := collaborators never nothing_resolves) tt
                     (tt, add_span_call span_start
                            (add_span_call (create_span lambda_args) empty_state))))
             (Exn "ImportError" true "cannot resolve" [])
             (fst (echo_handler lambda_args ∅
                     (fst (pre_run_outcome (C := collaborators never nothing_resolves)
                             lambda_args empty_state))))
             (VStr "event")
             eq_refl eq_refl eq_refl eq_refl eq_refl eq_refl eq_refl eq_refl).
  split; reflexivity.
Defined.

(** X14 at three invocations in a fresh process. *)
Lemma installed_once_witness :
  patches (fst (repeat_call 3 (wrap_http_calls (C := well_behaved)) empty_state))
    = four_patches.
Proof.
  exact (proj1 (installed_exactly_once (C := well_behaved) 2 empty_state
                  eq_refl (fun _ _ _ => eq_refl))).
Defined.

(** X15 at three invocations in a process without botocore. *)
Lemma partial_install_witness :
  patches (fst (repeat_call 3 (wrap_http_calls (C := collaborators never no_botocore))
                  empty_state))
    = [send_patch; send_patch; send_patch].
Proof.
  exact (proj1 (partial_install_accumulates (C := collaborators never no_botocore)
                  3 empty_state
                  (Exn "ModuleNotFoundError" true "No module named 'botocore'" [])
                  eq_refl (fun _ => eq_refl) (fun _ => eq_refl))).
Defined.

(** X16 at a request built with one header. *)
Lemma putheader_sets_witness :
  exists d' kwargs',
    _putheader_wrapper (C := well_behaved) echo_handler VNone [VStr "GET"]
        {[ "headers" := VDict {[ "Host" := "example.com" ]} ]} empty_state
      = echo_handler [VStr "GET"] kwargs' empty_state
    /\ kwargs' !! "headers" = Some (VDict d')
    /\ (forall k, k <> "headers" ->
        kwargs' !! k
          = ({[ "headers" := VDict {[ "Host" := "example.com" ]} ]} : gmap string value) !! k)
    /\ d' !! "X-Amzn-Trace-Id" = Some "Root=1-5e1b4151-5ac6c58f"
    /\ (forall k, k <> "X-Amzn-Trace-Id" ->
        d' !! k = ({[ "Host" := "example.com" ]} : gmap string string) !! k).
Proof.
  exact (putheader_sets_trace_header (C := well_behaved) echo_handler VNone [VStr "GET"]
           {[ "headers" := VDict {[ "Host" := "example.com" ]} ]} empty_state
           "Root=1-5e1b4151-5ac6c58f" {[ "Host" := "example.com" ]} eq_refl eq_refl).
Defined.

(** X17 at a call with event and context. *)
Lemma call_forwards_witness :
  __call__ (C := well_behaved) adapter lambda_args ∅ empty_state
    = lambda_wrapper (C := well_behaved) (py_call (Collaborators := well_behaved) chalice_app)
        lambda_args ∅ empty_state.
Proof.
  refine (call_forwards_given_context (C := well_behaved) adapter lambda_args ∅
            empty_state _).
  left. cbn. lia.
Defined.

(** X18 at a call with the event alone, on an application without
    [current_request]. *)
Lemma call_injects_witness :
  __call__ (C := well_behaved) adapter [VStr "event"] ∅ empty_state
    = lambda_wrapper (C := well_behaved) (py_call (Collaborators := well_behaved) chalice_app)
        [VStr "event"] {[ "context" := VNone ]} empty_state.
Proof.
  refine (proj2 (proj2 (call_injects_default_context (C := well_behaved) adapter
                          [VStr "event"] ∅ empty_state _ _ eq_refl))
            empty_state (AttributeError "current_request") eq_refl eq_refl).
  - discriminate.
  - cbn. lia.
Defined.

(** X19 at the same call with the kill switch on. *)
Lemma call_kill_switch_witness :
  __call__ (C := well_behaved) adapter [VStr "event"] ∅
      (with_environ _KILL_SWITCH "true" empty_state)
    = (with_environ _KILL_SWITCH "true" empty_state, Ret (VObject 2 (<["schedule" := "decorator factory"]> {[ "route" := "decorator factory" ]}))).
Proof.
  refine (call_under_kill_switch_adds_context (C := well_behaved) adapter
            [VStr "event"] ∅ (with_environ _KILL_SWITCH "true" empty_state)
            (with_environ _KILL_SWITCH "true" empty_state)
            (AttributeError "current_request") _ _ eq_refl eq_refl eq_refl eq_refl).
  - discriminate.
  - cbn. lia.
Defined.

(** X20 at a stream holding the example request. *)
Lemma stream_parsed_witness :
  state_at_send (C := well_behaved) example_connection [VBytesIO 3] fresh_stream_state
    = add_span_call
        (add_request_event
           (mkHttpRequest (Some "example.com") (Some "GET") (Some "example.com/foo?x=1")
                          (HParsed [("Host", "example.com")]) (VBytes "")))
        fresh_stream_state.
Proof.
  rewrite (proj1 (stream_parsed_as_its_prefix (C := well_behaved) example_connection []
                    fresh_stream_state 3 example_request 0 eq_refl)).
  reflexivity.
Defined.

(** X21 at a request line followed by the blank line. *)
Lemma bare_header_block_witness :
  state_at_send (C := well_behaved) example_connection [VBytes bare_request] empty_state
    = add_span_call
        (add_request_event
           (mkHttpRequest (Some "example.com") (Some "GET") None (HRaw "GET / HTTP/1.1")
                          (VBytes "")))
        empty_state.
Proof.
  refine (proj1 (bare_header_block_recorded_raw (C := well_behaved) example_connection
                   [VBytes bare_request] empty_state bare_request "GET / HTTP/1.1" ""
                   eq_refl eq_refl eq_refl) _ eq_refl).
  discriminate.
Defined.

(** X22 at a request line with a byte outside ASCII. *)
Lemma late_parse_failure_witness :
  exists e,
    state_at_send (C := well_behaved) example_connection [VBytes latin1_request] empty_state
      = add_span_call
          (add_request_event
             (mkHttpRequest (Some "example.com") (Some "GET") None
                            (HParsed [("Host", "example.com")]) (VBytes "")))
          (add_log (LogException "parse request" e) empty_state).
Proof.
  refine (late_parse_failure_keeps_headers (C := well_behaved) example_connection
            [VBytes latin1_request] empty_state latin1_request _ ""
            (String "233"%char "GET /caf HTTP/1.1") "Host: example.com"
            [("Host", "example.com")]
            eq_refl eq_refl eq_refl eq_refl _ (fun _ => eq_refl) (or_introl eq_refl)).
  discriminate.
Defined.

(** X23 at a send whose data is passed by keyword. *)
Lemma other_data_witness :
  state_at_send (C := well_behaved) example_connection [] empty_state
    = add_span_call
        (add_unparsed_request
           (mkHttpRequest (Some "example.com") (Some "GET") None HNone VNone))
        empty_state.
Proof.
  refine (other_data_recorded_unparsed (C := well_behaved) example_connection []
            empty_state _ _ eq_refl); intros; discriminate.
Defined.

(** X24 at the example request with a trace context out of order. *)
Lemma broken_trace_witness :
  span (state_at_send (C := collaborators span_always_fails never3)
          example_connection [VBytes example_request] empty_state)
    = [].
Proof.
  refine (proj1 (broken_trace_context_records_nothing
                   (C := collaborators span_always_fails never3)
                   echo_handler example_connection [VBytes example_request] ∅
                   empty_state _)).
  intros c s'. discriminate.
Defined.
